(** * The [distance] style expression of mapbox-gl-native

    A shallow embedding of [src/mbgl/style/expression/distance.cpp] and the
    properties of it that the specification states.

    Numbers are IEEE-754 binary64 values, as C++ [double]: the kernel's
    primitive floats.  The collaborators that the translation unit only
    includes (the cheap ruler, the tile geometry conversion, the generic
    [Convertible] view of the style document, the GeoJSON decoder and encoder)
    are interfaces, given as type classes; every definition and theorem holds
    for all their instances. *)

From Stdlib Require Import Floats ZArith Lia Bool Ascii.
From stdpp Require Import base option list strings pretty gmap.

Local Open Scope Z_scope.

(** ** Numbers *)

Abbreviation double := float.

(** [std::numeric_limits<double>::infinity()] *)
Definition infinity : double := PrimFloat.infinity.

(** [std::min(a, b)] is [(b < a) ? b : a]. *)
Definition std_min (a b : double) : double :=
  if (b <? a)%float then b else a.

(** ** Geometry: [mapbox::geometry] *)

Record Point := mkPoint { x : double; y : double }.

Definition line_string := list Point.
Definition multi_point := list Point.
Definition linear_ring := list Point.
Definition polygon := list linear_ring.
Definition multi_line_string := list line_string.
Definition multi_polygon := list polygon.

(** [mapbox::geometry::geometry<double>], the variant behind
    [Feature::geometry_type]. *)
#[warnings="-register-all"] Inductive geometry :=
| g_empty
| g_point (p : Point)
| g_line_string (l : line_string)
| g_polygon (pg : polygon)
| g_multi_point (ps : multi_point)
| g_multi_line_string (ls : multi_line_string)
| g_multi_polygon (pgs : multi_polygon)
| g_geometry_collection (gs : list geometry).

(** [mbgl::FeatureType] *)
Inductive FeatureType := FT_Unknown | FT_Point | FT_LineString | FT_Polygon.

Global Instance FeatureType_eq_dec : EqDecision FeatureType.
Proof. solve_decision. Defined.

(** [mapbox::cheap_ruler::CheapRuler::Unit], as far as this file names it. *)
Inductive Unit := Meters | Kilometers | Miles | Inches.

Global Instance Unit_eq_dec : EqDecision Unit.
Proof. solve_decision. Defined.

(** ** Segment intersection test *)

(** The lambda [perp] of [lineIntersectLine]. *)
Definition perp (v1 v2 : Point) : double :=
  (x v1 * y v2 - y v1 * x v2)%float.

(** The lambda [twoSided] of [lineIntersectLine]: are [p1] and [p2] on
    different sides of the line through [q1] and [q2]? *)
Definition twoSided (p1 p2 q1 q2 : Point) : bool :=
  let x1 := (x p1 - x q1)%float in
  let y1 := (y p1 - y q1)%float in
  let x2 := (x p2 - x q1)%float in
  let y2 := (y p2 - y q1)%float in
  let x3 := (x q2 - x q1)%float in
  let y3 := (y q2 - y q1)%float in
  let ret1 := (x1 * y3 - x3 * y1)%float in
  let ret2 := (x2 * y3 - x3 * y2)%float in
  ((0 <? ret1)%float && (ret2 <? 0)%float)
  || ((ret1 <? 0)%float && (0 <? ret2)%float).

(** [a], [b] are the end points of segment 1, [c] and [d] those of
    segment 2. *)
Definition lineIntersectLine (a b c d : Point) : bool :=
  let vectorP := mkPoint (x b - x a) (y b - y a) in
  let vectorQ := mkPoint (x d - x c) (y d - y c) in
  if (perp vectorQ vectorP =? 0)%float then false
  else twoSided a b c d && twoSided c d a b.

(** *** The intersection test in the specification's words *)




(** ** Undefined behaviour

    Indexing a vector out of range and a failed [assert] leave defined
    behaviour; code that can do either returns an [outcome]. *)

Inductive fault := OutOfBounds | AssertionFailed.

Inductive outcome (A : Type) :=
| Ok (a : A)
| Fault (f : fault).
Arguments Ok {A} a.
Arguments Fault {A} f.

Global Instance outcome_ret : MRet outcome := fun A a => Ok a.
Global Instance outcome_bind : MBind outcome := fun A B k m =>
  match m with
  | Ok a => k a
  | Fault f => Fault f
  end.
Global Instance outcome_fmap : FMap outcome := fun A B g m =>
  match m with
  | Ok a => Ok (g a)
  | Fault f => Fault f
  end.

(** *** [std::size_t] and [std::vector] *)

Definition size_max : Z := 2 ^ 64.

(** Subtraction of [std::size_t] values wraps around. *)
Definition size_sub (a b : Z) : Z := (a - b) mod size_max.

(** [v.size()] *)
Definition size {A} (v : list A) : Z := Z.of_nat (length v).

(** [v[i]], undefined outside [0 <= i < v.size()]. *)
Definition at_index {A} (v : list A) (i : Z) : outcome A :=
  if decide (0 <= i) then
    match v !! Z.to_nat i with
    | Some a => Ok a
    | None => Fault OutOfBounds
    end
  else Fault OutOfBounds.

(** *** Loops *)

(** What an iteration of a loop body does: it goes on with the updated loop
    state, or the enclosing function returns. *)
Inductive flow (S R : Type) :=
| Next (s : S)
| Return (r : R).
Arguments Next {S R} s.
Arguments Return {S R} r.

(** [n] iterations from index [i], unless the body returns or faults.  The
    index stays below the bound, so [++i] does not wrap around. *)
Fixpoint iterate {S R} (n : nat) (i : Z)
    (body : Z -> S -> outcome (flow S R)) (s : S) : outcome (flow S R) :=
  match n with
  | O => Ok (Next s)
  | Datatypes.S n' =>
      r ← body i s;
      match r with
      | Next s' => iterate n' (i + 1) body s'
      | Return v => Ok (Return v)
      end
  end.

(** [for (std::size_t i = 0; i < bound; ++i) body], the bound being loop
    invariant. *)
Definition for_range {S R} (bound : Z)
    (body : Z -> S -> outcome (flow S R)) (s : S) : outcome (flow S R) :=
  iterate (Z.to_nat bound) 0 body s.

(** The list-directed counterpart of [iterate]. *)
Fixpoint fold_flow {A S R} (f : A -> S -> outcome (flow S R))
    (xs : list A) (s : S) : outcome (flow S R) :=
  match xs with
  | [] => Ok (Next s)
  | a :: xs' =>
      r ← f a s;
      match r with
      | Next s' => fold_flow f xs' s'
      | Return v => Ok (Return v)
      end
  end.

(** ** Local distance metric: [mapbox::cheap_ruler::CheapRuler]

    The ruler comes from [<mapbox/cheap_ruler.hpp>]; this file uses its
    constructor and two of its queries. *)
Class CheapRulerAPI := {
  CheapRuler : Type;
  (** [CheapRuler(latitude, unit)] *)
  CheapRuler_new : double -> Unit -> CheapRuler;
  (** [ruler.distance(a, b)] *)
  ruler_distance : CheapRuler -> Point -> Point -> double;
  (** [ruler.pointOnLine(line, p)]: the nearest point on the line, the index
      of its segment and the position along it. *)
  ruler_pointOnLine : CheapRuler -> line_string -> Point -> Point * Z * double
}.

(** ** Shortest-distance algorithms *)

Section ShortestDistance.
Context `{Ruler : CheapRulerAPI}.

Definition shortestDistanceToLine
    (point : Point) (line : line_string) (ruler : CheapRuler) : double :=
  let nearestPoint := (ruler_pointOnLine ruler line point).1.1 in
  ruler_distance ruler point nearestPoint.

(** The loop of [shortestDistanceToLines], from the running minimum
    [dist]. *)
Fixpoint shortestDistanceToLines_from (point : Point)
    (lines : multi_line_string) (ruler : CheapRuler) (dist : double)
    : double :=
  match lines with
  | [] => dist
  | line :: lines' =>
      let nearestPoint := (ruler_pointOnLine ruler line point).1.1 in
      let tempDist := ruler_distance ruler point nearestPoint in
      if (tempDist =? 0)%float then tempDist
      else shortestDistanceToLines_from point lines' ruler
             (std_min dist tempDist)
  end.

Definition shortestDistanceToLines
    (point : Point) (lines : multi_line_string) (ruler : CheapRuler)
    : double :=
  shortestDistanceToLines_from point lines ruler infinity.

(** The loop of [shortestDistanceToPoints]; [i] runs over [0 <= i <
    points.size()], so [points[i]] is each element in turn. *)
Fixpoint shortestDistanceToPoints_from (point : Point)
    (points : multi_point) (ruler : CheapRuler) (dist : double) : double :=
  match points with
  | [] => dist
  | p :: points' =>
      let tempDist := ruler_distance ruler point p in
      if (tempDist =? 0)%float then tempDist
      else shortestDistanceToPoints_from point points' ruler
             (std_min dist tempDist)
  end.

Definition shortestDistanceToPoints
    (point : Point) (points : multi_point) (ruler : CheapRuler) : double :=
  shortestDistanceToPoints_from point points ruler infinity.

(** The body of the inner loop of [shortestDistanceLineToLine] once the
    four vertices are read. *)
Definition segment_pair_step (ruler : CheapRuler) (p1 p2 q1 q2 : Point)
    (dist : double) : flow double double :=
  if lineIntersectLine p1 p2 q1 q2 then Return 0%float
  else
    let dist := std_min dist (shortestDistanceToLine p1 [q1; q2] ruler) in
    let dist := std_min dist (shortestDistanceToLine p2 [q1; q2] ruler) in
    let dist := std_min dist (shortestDistanceToLine q1 [p1; p2] ruler) in
    let dist := std_min dist (shortestDistanceToLine q1 [p1; p2] ruler) in
    Next dist.

Definition shortestDistanceLineToLine
    (line1 line2 : line_string) (ruler : CheapRuler) : outcome double :=
  let dist := infinity in
  r ← for_range (size_sub (size line1) 1) (fun i dist =>
         p1 ← at_index line1 i;
         p2 ← at_index line1 (i + 1);
         for_range (size_sub (size line2) 1) (fun j dist =>
           q1 ← at_index line2 j;
           q2 ← at_index line2 (j + 1);
           mret (segment_pair_step ruler p1 p2 q1 q2 dist)) dist) dist;
  mret (match r with Next dist => dist | Return v => v end).

(** *** Dispatch on the shape of the reference geometry *)

Definition pointDistanceToGeometry
    (point : Point) (geoSet : geometry) (unit : Unit) : double :=
  let ruler := CheapRuler_new (y point) unit in
  match geoSet with
  | g_point p => ruler_distance ruler point p
  | g_multi_point points => shortestDistanceToPoints point points ruler
  | g_line_string line => shortestDistanceToLine point line ruler
  | g_multi_line_string lines => shortestDistanceToLines point lines ruler
  | _ => infinity
  end.

(** The multi-point loop of [lineDistanceToGeometry]. *)
Definition line_to_points_from (line : line_string) (points : multi_point)
    (ruler : CheapRuler) (dist : double) : double :=
  foldl (fun dist p => std_min dist (shortestDistanceToLine p line ruler))
        dist points.

(** The multi-line loop of [lineDistanceToGeometry]. *)
Fixpoint line_to_lines_from (line : line_string)
    (lines : multi_line_string) (ruler : CheapRuler) (dist : double)
    : outcome double :=
  match lines with
  | [] => mret dist
  | l :: lines' =>
      tempDist ← shortestDistanceLineToLine line l ruler;
      if (tempDist =? 0)%float then mret 0%float
      else line_to_lines_from line lines' ruler (std_min dist tempDist)
  end.

Definition lineDistanceToGeometry
    (line : line_string) (geoSet : geometry) (unit : Unit)
    : outcome double :=
  match line with
  | [] => Fault AssertionFailed
  | front :: _ =>
      let ruler := CheapRuler_new (y front) unit in
      match geoSet with
      | g_point p => mret (shortestDistanceToLine p line ruler)
      | g_multi_point points =>
          mret (line_to_points_from line points ruler infinity)
      | g_line_string line1 => shortestDistanceLineToLine line line1 ruler
      | g_multi_line_string lines =>
          line_to_lines_from line lines ruler infinity
      | _ => mret (-1)%float
      end
  end.
End ShortestDistance.

(** ** Values *)

(** [mbgl::Value], that is [mapbox::feature::value]. *)
#[warnings="-register-all"] Inductive MbglValue :=
| V_null
| V_bool (b : bool)
| V_uint64 (n : Z)
| V_int64 (n : Z)
| V_double (d : double)
| V_string (s : string)
| V_array (vs : list MbglValue)
| V_object (m : gmap string MbglValue).

(** [mbgl::style::expression::Value], the value model of expressions.  Its
    alternatives [Color], [Collator], [Formatted] and [Image], which this
    file never builds, are left out. *)
#[warnings="-register-all"] Inductive Value :=
| Null
| E_bool (b : bool)
| E_number (d : double)
| E_string (s : string)
| E_array (vs : list Value)
| E_object (m : gmap string Value).

(** [std::unordered_map::emplace]: the entry is added unless the key is
    already present. *)
Definition emplace {A} (k : string) (a : A) (m : gmap string A)
    : gmap string A :=
  match m !! k with
  | Some _ => m
  | None => <[k := a]> m
  end.

(** A [std::string] built from a C string: the characters before the first
    NUL. *)
Fixpoint c_str (s : string) : string :=
  match s with
  | EmptyString => EmptyString
  | String c s' => if Ascii.eqb c Ascii.zero then EmptyString
                   else String c (c_str s')
  end.

(** Does the string hold a NUL character? *)
Fixpoint has_nul (s : string) : bool :=
  match s with
  | EmptyString => false
  | String c s' => Ascii.eqb c Ascii.zero || has_nul s'
  end.

(** [rapidjson::Value], the generic document that [mapbox::geojson::convert]
    produces.  A number is held either as a double or as an integer;
    [IsDouble()] holds of the first only.  [GetString()] gives a string, and
    the name of a member, as a C string. *)
#[warnings="-register-all"] Inductive rapidjson_value :=
| RJ_Null
| RJ_False
| RJ_True
| RJ_Object (members : list (string * rapidjson_value))
| RJ_Array (elements : list rapidjson_value)
| RJ_String (s : string)
| RJ_Integer (n : Z)
| RJ_Double (d : double).

(** ** GeoJSON documents: [mapbox::geojson] *)

(** [mapbox::feature::identifier] *)
Inductive identifier :=
| id_null
| id_uint64 (n : Z)
| id_int64 (n : Z)
| id_double (d : double)
| id_string (s : string).

(** [mapbox::feature::feature<double>], and [mbgl::Feature], which derives
    from it. *)
Record Feature := mkFeature {
  f_geometry : geometry;
  f_properties : gmap string MbglValue;
  f_id : identifier
}.

(** [mbgl::Feature(geometry)] *)
Definition Feature_of_geometry (g : geometry) : Feature :=
  mkFeature g ∅ id_null.

(** [mapbox::geojson::geojson]: a geometry, a feature or a feature
    collection. *)
Inductive GeoJSON :=
| GJ_geometry (g : geometry)
| GJ_feature (f : Feature)
| GJ_feature_collection (fs : list Feature).

(** ** Tile features *)

(** What the translation unit uses of [GeometryTileFeature] and
    [CanonicalTileID] ([<mbgl/tile/geometry_tile_data.hpp>]). *)
Class TileAPI := {
  GeometryTileFeature : Type;
  CanonicalTileID : Type;
  (** [feature.getType()] *)
  getType : GeometryTileFeature -> FeatureType;
  (** [convertGeometry(feature, canonical)]: the feature's geometry in
      geographic coordinates. *)
  convertGeometry : GeometryTileFeature -> CanonicalTileID -> geometry
}.

Section CalculateDistance.
Context `{Ruler : CheapRulerAPI} `{Tile : TileAPI}.

(** The multi-point loop of [calculateDistance]. *)
Fixpoint points_to_geometry_from (points : multi_point) (geoSet : geometry)
    (unit : Unit) (ret : double) : double :=
  match points with
  | [] => ret
  | p :: points' =>
      let dist := pointDistanceToGeometry p geoSet unit in
      if (dist =? 0)%float then dist
      else points_to_geometry_from points' geoSet unit (std_min ret dist)
  end.

(** The multi-line loop of [calculateDistance]. *)
Fixpoint lines_to_geometry_from (lines : multi_line_string)
    (geoSet : geometry) (unit : Unit) (ret : double) : outcome double :=
  match lines with
  | [] => mret ret
  | line :: lines' =>
      dist ← lineDistanceToGeometry line geoSet unit;
      if (dist =? 0)%float then mret dist
      else lines_to_geometry_from lines' geoSet unit (std_min ret dist)
  end.

Definition calculateDistance (feature : GeometryTileFeature)
    (canonical : CanonicalTileID) (geoSet : geometry) (unit : Unit)
    : outcome double :=
  match convertGeometry feature canonical with
  | g_point point => mret (pointDistanceToGeometry point geoSet unit)
  | g_multi_point points =>
      mret (points_to_geometry_from points geoSet unit infinity)
  | g_line_string line => lineDistanceToGeometry line geoSet unit
  | g_multi_line_string lines =>
      lines_to_geometry_from lines geoSet unit infinity
  | _ => mret (-1)%float
  end.
End CalculateDistance.

(** ** The expression node *)

(** [mbgl::style::expression::Distance]: the reference document as given,
    the geometry taken from it, and the unit. *)
Record Distance := mkDistance {
  geoJSONSource : GeoJSON;
  geometries : geometry;
  unit : Unit
}.

(** [EvaluationResult]: an [EvaluationError] or a value. *)
Inductive EvaluationResult :=
| EvaluationError (message : string)
| EvaluationValue (v : Value).

(** [EvaluationContext], as far as [evaluate] reads it: two pointers that
    may be null. *)
Record EvaluationContext `{Tile : TileAPI} := mkEvaluationContext {
  feature : option GeometryTileFeature;
  canonical : option CanonicalTileID
}.

Section Evaluate.
Context `{Ruler : CheapRulerAPI} `{Tile : TileAPI}.

Definition evaluate (self : Distance) (params : EvaluationContext)
    : outcome EvaluationResult :=
  match feature params, canonical params with
  | Some feature, Some canonical =>
      let geometryType := getType feature in
      if decide (geometryType = FT_Point) then
        distance ← calculateDistance feature canonical
                      (geometries self) (unit self);
        mret (EvaluationValue (E_number distance))
      else if decide (geometryType = FT_LineString) then
        distance ← calculateDistance feature canonical
                      (geometries self) (unit self);
        mret (EvaluationValue (E_number distance))
      else
        mret (EvaluationError
          "distance expression currently only supports feature with Point geometry.")
  | _, _ =>
      mret (EvaluationError
        "distance expression requirs valid feature and canonical information.")
  end.
End Evaluate.

(** ** Argument parser *)

(** [style::expression::ParsingContext], as far as this file uses it: the
    errors reported so far, oldest first. *)
Definition ParsingContext := list string.

(** [ctx.error(message)] *)
Definition ctx_error (message : string) (ctx : ParsingContext)
    : ParsingContext :=
  ctx ++ [message].

(** What the translation unit uses of [style::conversion::Convertible] and of
    the GeoJSON decoder ([<mbgl/style/conversion/json.hpp>]). *)
Class ConvertibleAPI := {
  Convertible : Type;
  isArray : Convertible -> bool;
  (** [arrayLength(value)], a [std::size_t] *)
  arrayLength : Convertible -> Z;
  arrayMember : Convertible -> Z -> Convertible;
  (** [toString(value)], an [optional<std::string>] *)
  toString : Convertible -> option string;
  isObject : Convertible -> bool;
  (** [toGeoJSON(value, error)]: the decoded document, if any, and
      [error.message] afterwards, which starts empty. *)
  toGeoJSON : Convertible -> option GeoJSON * string
}.

(** The visitor [ToFeatureType] ([<mbgl/util/geometry.hpp>]), which gives
    the feature type of a geometry. *)
Class FeatureTypeAPI := {
  ToFeatureType : geometry -> FeatureType
}.

Record Arguments := mkArguments {
  geojson : GeoJSON;
  arg_unit : Unit
}.

(** [util::toString] of a [std::size_t]. *)
Definition util_toString (n : Z) : string := pretty (Z.to_N n).

Section Parse.
Context `{Conv : ConvertibleAPI} `{Visitor : FeatureTypeAPI}.

(** The unit selected by the statements of [parseValue] between the check
    of the length and the reading of the first argument. *)
Definition parseValue_unit (value : Convertible) : Unit :=
  let unit := Meters in
  if arrayLength value =? 3 then
    let input := default "Meters"%string (toString (arrayMember value 2)) in
    let unit :=
      if (input =? "Meters")%string || (input =? "Metres")%string
      then Meters else unit in
    let unit := if (input =? "Kilometers")%string then Kilometers else unit in
    let unit := if (input =? "Miles")%string then Miles else unit in
    let unit := if (input =? "Inches")%string then Inches else unit in
    unit
  else unit.

Definition parseValue (value : Convertible) (ctx : ParsingContext)
    : option Arguments * ParsingContext :=
  let not_an_array ctx :=
    (None,
     ctx_error
       "'distance' expression needs to be an array with one/two arguments."
       ctx) in
  if isArray value then
    let length := arrayLength value in
    if negb (length =? 2) && negb (length =? 3) then
      (None,
       ctx_error
         ("'distance' expression requires exactly one argument, but found "
          +:+ util_toString (size_sub (arrayLength value) 1)
          +:+ " instead.") ctx)
    else
      let unit := parseValue_unit value in
      let argument1 := arrayMember value 1 in
      if isObject argument1 then
        let '(geojson, message) := toGeoJSON argument1 in
        match geojson with
        | Some g =>
            if (message =? "")%string then (Some (mkArguments g unit), ctx)
            else not_an_array (ctx_error message ctx)
        | None => not_an_array (ctx_error message ctx)
        end
      else not_an_array ctx
  else not_an_array ctx.

Definition getGeometry (feature : Feature) (ctx : ParsingContext)
    : option geometry * ParsingContext :=
  let type := ToFeatureType (f_geometry feature) in
  if bool_decide (type = FT_Point) || bool_decide (type = FT_LineString)
  then (Some (f_geometry feature), ctx)
  else
    (None,
     ctx_error
       "'distance' expression requires valid geojson source that contains Point/LineString geometry type."
       ctx).

(** The feature-collection loop of [Distance::parse]. *)
Fixpoint parse_features (parsedValue : Arguments) (features : list Feature)
    (ctx : ParsingContext) : option Distance * ParsingContext :=
  match features with
  | [] => (None, ctx)
  | feature :: features' =>
      match getGeometry feature ctx with
      | (Some ret, ctx) =>
          (Some (mkDistance (geojson parsedValue) ret (arg_unit parsedValue)),
           ctx)
      | (None, ctx) => parse_features parsedValue features' ctx
      end
  end.

(** [Distance::parse].  The three alternatives of [GeoJSON] are matched;
    the catch-all visitor of the source has no alternative left. *)
Definition parse (value : Convertible) (ctx : ParsingContext)
    : option Distance * ParsingContext :=
  match parseValue value ctx with
  | (None, ctx) => (None, ctx)
  | (Some parsedValue, ctx) =>
      match geojson parsedValue with
      | GJ_geometry geometrySet =>
          match getGeometry (Feature_of_geometry geometrySet) ctx with
          | (Some ret, ctx) =>
              (Some (mkDistance (geojson parsedValue) ret
                       (arg_unit parsedValue)), ctx)
          | (None, ctx) => (None, ctx)
          end
      | GJ_feature feature =>
          match getGeometry feature ctx with
          | (Some ret, ctx) =>
              (Some (mkDistance (geojson parsedValue) ret
                       (arg_unit parsedValue)), ctx)
          | (None, ctx) => (None, ctx)
          end
      | GJ_feature_collection features =>
          parse_features parsedValue features ctx
      end
  end.
End Parse.

(** ** Serialization *)

Fixpoint convertValue (v : rapidjson_value) : Value :=
  match v with
  | RJ_Double d => E_number d
  | RJ_String s => E_string (c_str s)
  | RJ_Array elements => E_array (map convertValue elements)
  | RJ_Object members =>
      E_object
        (foldl (fun result m => emplace (c_str m.1) (convertValue m.2) result)
               ∅ members)
  | _ => Null
  end.

(** What [Distance::serialize] uses of its collaborators. *)
Class SerializeAPI := {
  (** [mapbox::geojson::convert(geojson, allocator)] *)
  geojson_convert : GeoJSON -> rapidjson_value;
  (** [*fromExpressionValue<mbgl::Value>(v)] *)
  fromExpressionValue : Value -> MbglValue
}.

Definition getOperator : string := "distance".

Section Serialize.
Context `{Codec : SerializeAPI}.

(** The value returned and the messages logged. *)
Definition serialize (self : Distance) : MbglValue * list string :=
  let value := geojson_convert (geoJSONSource self) in
  let '(serialized, log) :=
    match value with
    | RJ_Object members =>
        (foldl (fun serialized m =>
                  emplace (c_str m.1) (convertValue m.2) serialized)
               ∅ members, [])
    | _ =>
        (∅,
         ["Failed to serialize 'distance' expression, converted rapidJSON is not an object"%string])
    end in
  (V_array [V_string getOperator; fromExpressionValue (E_object serialized)],
   log).
End Serialize.

(** ** The line-to-line distance in the specification's words *)

(** The consecutive-vertex segments of a line. *)
Definition segments (line : line_string) : list (Point * Point) :=
  zip line (tail line).

(** Every segment of [line1] with every segment of [line2], in the order of
    the two nested loops. *)
Definition segment_pairs (line1 line2 : line_string)
    : list ((Point * Point) * (Point * Point)) :=
  s1 ← segments line1; s2 ← segments line2; [(s1, s2)].

Definition segments_intersect (pq : (Point * Point) * (Point * Point))
    : bool :=
  lineIntersectLine pq.1.1 pq.1.2 pq.2.1 pq.2.2.

Section LineToLineSpec.
Context `{Ruler : CheapRulerAPI}.

(** The four end-point-to-opposite-segment distances of a segment pair:
    p1 to (q1,q2), p2 to (q1,q2), q1 to (p1,p2) and q2 to (p1,p2). *)
Definition endpoint_distances (ruler : CheapRuler)
    (pq : (Point * Point) * (Point * Point)) : list double :=
  let '((p1, p2), (q1, q2)) := pq in
  [ shortestDistanceToLine p1 [q1; q2] ruler;
    shortestDistanceToLine p2 [q1; q2] ruler;
    shortestDistanceToLine q1 [p1; p2] ruler;
    shortestDistanceToLine q2 [p1; p2] ruler ].

(** Zero when some segment pair intersects, else the minimum of the four
    distances over all segment pairs. *)
Definition lineToLine_spec (line1 line2 : line_string) (ruler : CheapRuler)
    : double :=
  let pairs := segment_pairs line1 line2 in
  if existsb segments_intersect pairs then 0%float
  else foldl std_min infinity (pairs ≫= endpoint_distances ruler).

(** The distances that [segment_pair_step] folds into the minimum, in its
    order. *)
Definition accumulated_distances (ruler : CheapRuler)
    (pq : (Point * Point) * (Point * Point)) : list double :=
  let '((p1, p2), (q1, q2)) := pq in
  [ shortestDistanceToLine p1 [q1; q2] ruler;
    shortestDistanceToLine p2 [q1; q2] ruler;
    shortestDistanceToLine q1 [p1; p2] ruler;
    shortestDistanceToLine q1 [p1; p2] ruler ].
End LineToLineSpec.

(** The shapes that the dispatch layer measures. *)
Definition supported_shape (g : geometry) : bool :=
  match g with
  | g_point _ | g_multi_point _ | g_line_string _ | g_multi_line_string _ =>
      true
  | _ => false
  end.

(** ** The parser in the specification's words *)

(** The unit that a unit name selects, compared case-sensitively; any other
    name selects [Meters]. *)
Definition unit_named (name : string) : Unit :=
  if decide (name = "Meters"%string \/ name = "Metres"%string) then Meters
  else if decide (name = "Kilometers"%string) then Kilometers
  else if decide (name = "Miles"%string) then Miles
  else if decide (name = "Inches"%string) then Inches
  else Meters.

(** The recognized unit names. *)
Definition unit_names : list string :=
  ["Meters"; "Metres"; "Kilometers"; "Miles"; "Inches"]%string.

(** The geometries of a document, in order: of a geometry, of a feature, of
    the features of a collection. *)
Definition document_geometries (doc : GeoJSON) : list geometry :=
  match doc with
  | GJ_geometry g => [g]
  | GJ_feature f => [f_geometry f]
  | GJ_feature_collection fs => map f_geometry fs
  end.

(** A geometry of feature type [Point] or [LineString]. *)
Definition point_or_line `{Visitor : FeatureTypeAPI} (g : geometry) : Prop :=
  ToFeatureType g = FT_Point \/ ToFeatureType g = FT_LineString.

(** A [std::vector] holds fewer than [2 ^ 64] elements. *)
Definition vector_ok {A} (v : list A) : Prop := size v < size_max.

(** ** Instances of the interfaces, for evaluation on concrete inputs *)

Module Planar.
(** A ruler of the plane: the cheap ruler's queries with both scale factors
    equal to one and no wrap-around of longitudes. *)

Definition distance (a b : Point) : double :=
  let dx := (x a - x b)%float in
  let dy := (y a - y b)%float in
  PrimFloat.sqrt (dx * dx + dy * dy)%float.

(** The point of the segment from [a] to [b] nearest to [p], and its
    position along the segment. *)
Definition nearest_on_segment (a b p : Point) : Point * double :=
  let dx := (x b - x a)%float in
  let dy := (y b - y a)%float in
  if (dx =? 0)%float && (dy =? 0)%float then (a, 0%float)
  else
    let t :=
      (((x p - x a) * dx + (y p - y a) * dy) / (dx * dx + dy * dy))%float in
    if (1 <? t)%float then (b, 1%float)
    else if (0 <? t)%float
         then (mkPoint (x a + dx * t) (y a + dy * t), t)
         else (a, 0%float).

Fixpoint pointOnLine_from (line : line_string) (p : Point) (i : Z)
    (minDist : double) (best : Point * Z * double) : Point * Z * double :=
  match line with
  | a :: (b :: _) as rest =>
      let '(q, t) := nearest_on_segment a b p in
      let dx := (x p - x q)%float in
      let dy := (y p - y q)%float in
      let sqDist := (dx * dx + dy * dy)%float in
      if (sqDist <? minDist)%float
      then pointOnLine_from rest p (i + 1) sqDist (q, i, t)
      else pointOnLine_from rest p (i + 1) minDist best
  | _ => best
  end.

Definition pointOnLine (line : line_string) (p : Point)
    : Point * Z * double :=
  pointOnLine_from line p 0 infinity (mkPoint 0 0, 0, 0%float).

Definition ruler : CheapRulerAPI := {|
  CheapRuler := ();
  CheapRuler_new := fun _ _ => ();
  ruler_distance := fun _ => distance;
  ruler_pointOnLine := fun _ => pointOnLine
|}.
End Planar.

Module Sample.
(** A tile feature that carries its type and its converted geometry. *)
Definition tile : TileAPI := {|
  GeometryTileFeature := FeatureType * geometry;
  CanonicalTileID := ();
  getType := fst;
  convertGeometry := fun f _ => f.2
|}.

(** A style document in which an object carries what the GeoJSON decoder
    makes of it. *)
#[warnings="-register-all"] Inductive Doc :=
| D_null
| D_number (d : double)
| D_string (s : string)
| D_array (elements : list Doc)
| D_object (decoded : option GeoJSON) (message : string).

Definition doc : ConvertibleAPI := {|
  Convertible := Doc;
  isArray := fun v => match v with D_array _ => true | _ => false end;
  arrayLength := fun v => match v with D_array l => size l | _ => 0 end;
  arrayMember := fun v i =>
    match v with
    | D_array l => default D_null (l !! Z.to_nat i)
    | _ => D_null
    end;
  toString := fun v => match v with D_string s => Some s | _ => None end;
  isObject := fun v => match v with D_object _ _ => true | _ => false end;
  toGeoJSON := fun v =>
    match v with
    | D_object decoded message => (decoded, message)
    | _ => (None, "not an object"%string)
    end
|}.

(** The visitor as [<mbgl/util/geometry.hpp>] defines it, a collection
    having the type of its members: points and multi-points are of type
    [Point], line strings and multi-line strings of type [LineString],
    polygons and multi-polygons of type [Polygon].  The dispatch layer
    counts on it: it measures multi-point and multi-line references. *)
Definition feature_type : FeatureTypeAPI := {|
  ToFeatureType := fun g =>
    match g with
    | g_point _ | g_multi_point _ => FT_Point
    | g_line_string _ | g_multi_line_string _ => FT_LineString
    | g_polygon _ | g_multi_polygon _ => FT_Polygon
    | g_empty | g_geometry_collection _ => FT_Unknown
    end
|}.
End Sample.

(** ** Minimum loops *)

(** The loop shared by the minimum searches that stop at a zero: over the
    distances [ds] in turn, from the running minimum [dist]. *)
Fixpoint min_until_zero (ds : list double) (dist : double) : double :=
  match ds with
  | [] => dist
  | d :: ds' =>
      if (d =? 0)%float then d else min_until_zero ds' (std_min dist d)
  end.

(** ** Well-formed input *)


(** A line string with a vertex, held by a [std::vector]. *)
Definition usable_line (line : line_string) : Prop :=
  line <> [] /\ vector_ok line.

(** A point with a NaN coordinate. *)
Definition nan_point (p : Point) : bool :=
  PrimFloat.is_nan (x p) || PrimFloat.is_nan (y p).

(** ** Accepted arguments *)

(** The argument lists that [parseValue] accepts: an array of two or three
    elements whose second element is an object that the decoder turns into
    [document] without a message. *)
Definition accepted_arguments `{Conv : ConvertibleAPI}
    (value : Convertible) (document : GeoJSON) : Prop :=
  isArray value = true /\
  (arrayLength value = 2 \/ arrayLength value = 3) /\
  isObject (arrayMember value 1) = true /\
  toGeoJSON (arrayMember value 1) = (Some document, ""%string).

(** The features that [Distance::parse] examines, in order. *)
Definition document_features (doc : GeoJSON) : list Feature :=
  match doc with
  | GJ_geometry g => [Feature_of_geometry g]
  | GJ_feature f => [f]
  | GJ_feature_collection fs => fs
  end.

(** The error that [getGeometry] reports. *)
Definition geometry_type_error : string :=
  "'distance' expression requires valid geojson source that contains Point/LineString geometry type.".

(** The first member of an object with the given name, names being read as
    C strings. *)
Definition first_member (key : string)
    (members : list (string * rapidjson_value)) : option rapidjson_value :=
  snd <$> find (fun member => String.eqb (c_str member.1) key) members.

(** ** Facts on binary64 comparisons *)






(** The crossing diagonals of the unit square intersect; segments that
    share a line, and a segment that ends on the other one, do not. *)
Example lineIntersectLine_samples :
  lineIntersectLine (mkPoint 0 0) (mkPoint 1 1) (mkPoint 0 1) (mkPoint 1 0)
  = true /\
  lineIntersectLine (mkPoint 0 0) (mkPoint 2 0) (mkPoint 1 0) (mkPoint 3 0)
  = false /\
  lineIntersectLine (mkPoint 0 0) (mkPoint 2 0) (mkPoint 1 0) (mkPoint 1 1)
  = false.
Proof. vm_compute. repeat split; reflexivity. Qed.

(** ** Loops over the segments of a line *)

Lemma at_index_middle {A} (pre : list A) (a : A) (rest : list A) :
  at_index (pre ++ a :: rest) (size pre) = Ok a.
Proof.
  unfold at_index, size.
  destruct (decide (0 <= Z.of_nat (length pre))) as [_ | Hneg]; [| lia].
  rewrite Nat2Z.id, list_lookup_middle by reflexivity. reflexivity.
Qed.

Lemma at_index_nil {A} (i : Z) : at_index (@nil A) i = Fault OutOfBounds.
Proof. unfold at_index. destruct (decide (0 <= i)); reflexivity. Qed.

Lemma iterate_segments {S R} (f : Point -> Point -> S -> outcome (flow S R))
    (line pre : list Point) (s : S) :
  iterate (length line - 1) (size pre)
    (fun i s => p1 ← at_index (pre ++ line) i;
                p2 ← at_index (pre ++ line) (i + 1);
                f p1 p2 s) s
  = fold_flow (fun pq => f pq.1 pq.2) (segments line) s.
Proof.
  revert pre s. induction line as [| a line IH]; intros pre s; [reflexivity |].
  destruct line as [| b line]; [reflexivity |].
  replace (length (a :: b :: line) - 1)%nat with (Datatypes.S (length line))
    by (cbn; lia).
  cbn [iterate]. rewrite at_index_middle.
  assert (Hb : at_index (pre ++ a :: b :: line) (size pre + 1) = Ok b).
  { replace (size pre + 1) with (size (pre ++ [a]))
      by (unfold size; rewrite length_app; cbn; lia).
    replace (pre ++ a :: b :: line) with ((pre ++ [a]) ++ b :: line)
      by (rewrite <- app_assoc; reflexivity).
    apply at_index_middle. }
  change (Ok a ≫= ?k) with (k a). cbv beta. rewrite Hb.
  change (Ok b ≫= ?k) with (k b). cbv beta.
  cbn [segments tail zip zip_with fold_flow fst snd].
  destruct (f a b s) as [[s' | v] | e]; try reflexivity.
  change (Ok (Next s') ≫= ?k) with (k (@Next S R s')). cbv beta iota.
  specialize (IH (pre ++ [a]) s').
  replace (length (b :: line) - 1)%nat with (length line) in IH
    by (cbn; lia).
  replace (size (pre ++ [a])) with (size pre + 1) in IH
    by (unfold size; rewrite length_app; cbn; lia).
  rewrite <- app_assoc in IH. exact IH.
Qed.

Lemma size_sub_nonempty {A} (v : list A) :
  v <> [] -> vector_ok v -> Z.to_nat (size_sub (size v) 1) = (length v - 1)%nat.
Proof.
  unfold vector_ok, size_sub, size. intros Hne Hok.
  destruct v as [| a v]; [congruence |].
  rewrite Z.mod_small; cbn [length] in *; lia.
Qed.

Lemma for_range_segments {S R}
    (f : Point -> Point -> S -> outcome (flow S R))
    (line : list Point) (s : S) :
  line <> [] -> vector_ok line ->
  for_range (size_sub (size line) 1)
    (fun i s => p1 ← at_index line i; p2 ← at_index line (i + 1); f p1 p2 s) s
  = fold_flow (fun pq => f pq.1 pq.2) (segments line) s.
Proof.
  intros Hne Hok. unfold for_range. rewrite size_sub_nonempty by assumption.
  exact (iterate_segments f line [] s).
Qed.

Lemma fold_flow_ext {A S R} (f g : A -> S -> outcome (flow S R))
    (xs : list A) (s : S) :
  (forall a t, f a t = g a t) -> fold_flow f xs s = fold_flow g xs s.
Proof.
  intros Hext. revert s. induction xs as [| a xs IH]; intros s; [reflexivity |].
  cbn [fold_flow]. rewrite Hext.
  destruct (g a s) as [[s' | v] | e]; try reflexivity.
  apply IH.
Qed.

Section LineToLine.
Context `{Ruler : CheapRulerAPI}.

Lemma segment_pair_step_eq (ruler : CheapRuler) (p q : Point * Point)
    (dist : double) :
  segment_pair_step ruler p.1 p.2 q.1 q.2 dist
  = if segments_intersect (p, q) then Return 0%float
    else Next (foldl std_min dist (accumulated_distances ruler (p, q))).
Proof.
  unfold segment_pair_step, segments_intersect. destruct p, q. reflexivity.
Qed.

(** One segment of line 1 against every segment of line 2. *)
Lemma inner_loop_eq (ruler : CheapRuler) (p : Point * Point)
    (qs : list (Point * Point)) (dist : double) :
  fold_flow (fun q dist => Ok (segment_pair_step ruler p.1 p.2 q.1 q.2 dist))
    qs dist
  = Ok (if existsb segments_intersect (map (pair p) qs)
        then Return 0%float
        else Next (foldl std_min dist
                     (map (pair p) qs ≫= accumulated_distances ruler))).
Proof.
  revert dist. induction qs as [| q qs IH]; intros dist; [reflexivity |].
  cbn [fold_flow map existsb]. rewrite segment_pair_step_eq.
  change (Ok ?a ≫= ?k) with (k a). cbv beta.
  destruct (segments_intersect (p, q)); [reflexivity |].
  cbn [orb]. cbv iota. rewrite IH.
  change (((p, q) :: ?l) ≫= ?k) with (k (p, q) ++ (l ≫= k)).
  rewrite foldl_app. reflexivity.
Qed.

(** Every segment of line 1 against every segment of line 2. *)
Lemma nested_loop_eq (ruler : CheapRuler) (ps qs : list (Point * Point))
    (dist : double) :
  fold_flow (fun p dist =>
      fold_flow
        (fun q dist => Ok (segment_pair_step ruler p.1 p.2 q.1 q.2 dist))
        qs dist) ps dist
  = Ok (if existsb segments_intersect (p ← ps; q ← qs; [(p, q)])
        then Return 0%float
        else Next (foldl std_min dist
                     ((p ← ps; q ← qs; [(p, q)])
                        ≫= accumulated_distances ruler))).
Proof.
  assert (Hrow : forall p : Point * Point,
             (q ← qs; [(p, q)]) = map (pair p) qs).
  { intros p. induction qs as [| q qs IH]; [reflexivity |].
    cbn [map]. rewrite <- IH. reflexivity. }
  revert dist. induction ps as [| p ps IH]; intros dist; [reflexivity |].
  cbn [fold_flow]. rewrite inner_loop_eq.
  change ((p :: ps) ≫= ?k) with (k p ++ (ps ≫= k)). cbv beta.
  rewrite Hrow, existsb_app, bind_app, foldl_app.
  change (Ok ?a ≫= ?k) with (k a). cbv beta.
  destruct (existsb segments_intersect (map (pair p) qs)); [reflexivity |].
  cbn [orb]. cbv iota. apply IH.
Qed.

(** What [shortestDistanceLineToLine] computes on non-empty lines: zero
    when some segment pair intersects, else the minimum of the distances
    that [segment_pair_step] accumulates. *)
Lemma shortestDistanceLineToLine_eq (line1 line2 : line_string)
    (ruler : CheapRuler) :
  line1 <> [] -> line2 <> [] -> vector_ok line1 -> vector_ok line2 ->
  shortestDistanceLineToLine line1 line2 ruler
  = Ok (if existsb segments_intersect (segment_pairs line1 line2)
        then 0%float
        else foldl std_min infinity
               (segment_pairs line1 line2 ≫= accumulated_distances ruler)).
Proof.
  intros Hne1 Hne2 Hok1 Hok2. unfold shortestDistanceLineToLine.
  rewrite (for_range_segments
             (fun p1 p2 dist =>
                for_range (size_sub (size line2) 1)
                  (fun j dist =>
                     q1 ← at_index line2 j;
                     q2 ← at_index line2 (j + 1);
                     mret (segment_pair_step ruler p1 p2 q1 q2 dist)) dist))
    by assumption.
  rewrite (fold_flow_ext _
             (fun p dist =>
                fold_flow
                  (fun q dist =>
                     Ok (segment_pair_step ruler p.1 p.2 q.1 q.2 dist))
                  (segments line2) dist)).
  2: { intros p dist.
       exact (for_range_segments
                (fun q1 q2 dist =>
                   Ok (segment_pair_step ruler p.1 p.2 q1 q2 dist))
                line2 dist Hne2 Hok2). }
  rewrite nested_loop_eq. fold (segment_pairs line1 line2).
  change (Ok ?a ≫= ?k) with (k a). cbv beta.
  destruct (existsb segments_intersect (segment_pairs line1 line2));
    reflexivity.
Qed.
End LineToLine.

(** ** Line-to-line distance *)

(** C1: for two segments (p1,p2) and (q1,q2) that do not intersect, the
    distance in the specification's words is the minimum of the four
    end-point-to-opposite-segment distances, while
    [shortestDistanceLineToLine] returns the minimum of p1 to (q1,q2), p2 to
    (q1,q2) and, twice, q1 to (p1,p2): the distance of q2 to (p1,p2) takes
    no part in it. *)
Theorem shortestDistanceLineToLine_omits_q2 `{Ruler : CheapRulerAPI}
    (ruler : CheapRuler) (p1 p2 q1 q2 : Point) :
  lineIntersectLine p1 p2 q1 q2 = false ->
  let to_q := fun p => shortestDistanceToLine p [q1; q2] ruler in
  let to_p := fun q => shortestDistanceToLine q [p1; p2] ruler in
  let three := std_min (std_min (std_min infinity (to_q p1)) (to_q p2))
                 (to_p q1) in
  lineToLine_spec [p1; p2] [q1; q2] ruler = std_min three (to_p q2) /\
  shortestDistanceLineToLine [p1; p2] [q1; q2] ruler
  = Ok (std_min three (to_p q1)).
Proof.
  intros Hno to_q to_p three. split.
  - unfold lineToLine_spec. cbn [segment_pairs segments tail zip zip_with
      mbind list_bind app existsb].
    unfold segments_intersect. cbn [fst snd]. rewrite Hno. reflexivity.
  - rewrite shortestDistanceLineToLine_eq
      by (discriminate || reflexivity).
    cbn [segment_pairs segments tail zip zip_with mbind list_bind app existsb].
    unfold segments_intersect. cbn [fst snd]. rewrite Hno. reflexivity.
Qed.

(** On the lines from (0,0) to (10,0) and from (5,5) to (5,1), measured with
    the planar ruler, the nearest of the four distances is the one of q2 =
    (5,1) to (p1,p2), which is 1; the function returns 5, the distance of
    q1 = (5,5). *)
Lemma shortestDistanceLineToLine_omits_q2_witness :
  let line1 := [mkPoint 0 0; mkPoint 10 0] in
  let line2 := [mkPoint 5 5; mkPoint 5 1] in
  lineToLine_spec (Ruler := Planar.ruler) line1 line2 () = 1%float /\
  shortestDistanceLineToLine (Ruler := Planar.ruler) line1 line2 () = Ok 5%float.
Proof.
  exact (shortestDistanceLineToLine_omits_q2 (Ruler := Planar.ruler) ()
           (mkPoint 0 0) (mkPoint 10 0) (mkPoint 5 5) (mkPoint 5 1) eq_refl).
Defined.

(** ** Dispatch on unsupported shapes *)

(** C3: for a geometry that is not a point, multi-point, line string or
    multi-line string, [lineDistanceToGeometry] (on a non-empty line) and
    [calculateDistance] (when the feature converts to such a geometry) yield
    -1.0, but [pointDistanceToGeometry] yields +infinity, which is not
    -1.0. *)
Theorem dispatch_fallbacks `{Ruler : CheapRulerAPI} `{Tile : TileAPI}
    (geoSet : geometry) :
  supported_shape geoSet = false ->
  (forall point unit, pointDistanceToGeometry point geoSet unit = infinity) /\
  (forall front line unit,
     lineDistanceToGeometry (front :: line) geoSet unit = Ok (-1)%float) /\
  (forall feature canonical reference unit,
     convertGeometry feature canonical = geoSet ->
     calculateDistance feature canonical reference unit = Ok (-1)%float) /\
  (infinity =? -1)%float = false.
Proof.
  intros Hshape. repeat split.
  - intros point unit. destruct geoSet; try reflexivity; discriminate Hshape.
  - intros front line unit.
    destruct geoSet; try reflexivity; discriminate Hshape.
  - intros feature canonical reference unit Hconv.
    unfold calculateDistance. rewrite Hconv.
    destruct geoSet; try reflexivity; discriminate Hshape.
Qed.

Lemma dispatch_fallbacks_witness :
  pointDistanceToGeometry (Ruler := Planar.ruler) (mkPoint 0 0) (g_polygon [])
    Meters = infinity /\
  lineDistanceToGeometry (Ruler := Planar.ruler) [mkPoint 0 0] (g_polygon [])
    Meters = Ok (-1)%float.
Proof.
  destruct (dispatch_fallbacks (Ruler := Planar.ruler) (Tile := Sample.tile)
              (g_polygon []) eq_refl) as (Hpoint & Hline & _).
  split; [apply Hpoint | apply Hline].
Defined.

(** ** Evaluation *)

Lemma evaluate_number `{Ruler : CheapRulerAPI} `{Tile : TileAPI}
    (self : Distance) (params : EvaluationContext) (f : GeometryTileFeature)
    (c : CanonicalTileID) :
  feature params = Some f -> canonical params = Some c ->
  getType f = FT_Point \/ getType f = FT_LineString ->
  evaluate self params
  = (fun distance => EvaluationValue (E_number distance))
      <$> calculateDistance f c (geometries self) (unit self).
Proof.
  intros Hf Hc Hty. unfold evaluate. rewrite Hf, Hc.
  destruct (decide (getType f = FT_Point)) as [_ | Hnp].
  - destruct (calculateDistance _ _ _ _); reflexivity.
  - destruct (decide (getType f = FT_LineString)) as [_ | Hnl].
    + destruct (calculateDistance _ _ _ _); reflexivity.
    + destruct Hty; contradiction.
Qed.

(** C4: [evaluate] yields an [EvaluationError] exactly when the context has
    no feature or no tile identity or the feature's type is neither [Point]
    nor [LineString]; with both present and a feature of type [Point] or
    [LineString] it yields the number that [calculateDistance] produces from
    the stored reference geometry and unit. *)
Theorem evaluate_spec `{Ruler : CheapRulerAPI} `{Tile : TileAPI}
    (self : Distance) (params : EvaluationContext) :
  ((exists message, evaluate self params = Ok (EvaluationError message)) <->
     feature params = None \/ canonical params = None \/
     exists f, feature params = Some f /\
               getType f <> FT_Point /\ getType f <> FT_LineString) /\
  (forall f c,
     feature params = Some f -> canonical params = Some c ->
     getType f = FT_Point \/ getType f = FT_LineString ->
     evaluate self params
     = (fun distance => EvaluationValue (E_number distance))
         <$> calculateDistance f c (geometries self) (unit self)).
Proof.
  pose proof (evaluate_number self params) as Hnum.
  split; [| exact Hnum]. split.
  - intros [message Hev].
    destruct (feature params) as [f |] eqn:Hf; [| left; reflexivity].
    destruct (canonical params) as [c |] eqn:Hc; [| right; left; reflexivity].
    right; right. exists f. split; [reflexivity |].
    destruct (decide (getType f = FT_Point)) as [Hp | Hnp];
      [| destruct (decide (getType f = FT_LineString)) as [Hl | Hnl]].
    + rewrite (Hnum f c eq_refl eq_refl (or_introl Hp)) in Hev.
      destruct (calculateDistance _ _ _ _); discriminate Hev.
    + rewrite (Hnum f c eq_refl eq_refl (or_intror Hl)) in Hev.
      destruct (calculateDistance _ _ _ _); discriminate Hev.
    + split; assumption.
  - unfold evaluate. intros [Hf | [Hc | (f & Hf & Hnp & Hnl)]].
    + rewrite Hf. eexists; reflexivity.
    + rewrite Hc. destruct (feature params); eexists; reflexivity.
    + rewrite Hf. destruct (canonical params); [| eexists; reflexivity].
      destruct (decide (getType f = FT_Point)); [contradiction |].
      destruct (decide (getType f = FT_LineString)); [contradiction |].
      eexists; reflexivity.
Qed.

(** ** Bounds of the indexing in [shortestDistanceLineToLine] *)

Lemma for_range_pos {S R} (bound : Z) (body : Z -> S -> outcome (flow S R))
    (s : S) :
  0 < bound ->
  for_range bound body s
  = r ← body 0 s;
    match r with
    | Next s' => iterate (Z.to_nat bound - 1) 1 body s'
    | Return v => Ok (Return v)
    end.
Proof.
  intros Hpos. unfold for_range.
  destruct (Z.to_nat bound) as [| n] eqn:Hn; [lia |].
  cbn [iterate]. rewrite Nat.sub_1_r. reflexivity.
Qed.

Lemma size_sub_empty : size_sub (size (@nil Point)) 1 = size_max - 1.
Proof. reflexivity. Qed.

Lemma for_range_empty_line {S R}
    (f : Point -> Point -> S -> outcome (flow S R))
    (s : S) :
  for_range (size_sub (size (@nil Point)) 1)
    (fun i s => p1 ← at_index [] i; p2 ← at_index [] (i + 1); f p1 p2 s) s
  = Fault OutOfBounds.
Proof.
  rewrite for_range_pos by (rewrite size_sub_empty; unfold size_max; lia).
  rewrite at_index_nil. reflexivity.
Qed.

Section Bounds.
Context `{Ruler : CheapRulerAPI}.

Lemma shortestDistanceLineToLine_empty_l (line2 : line_string)
    (ruler : CheapRuler) :
  shortestDistanceLineToLine [] line2 ruler = Fault OutOfBounds.
Proof.
  unfold shortestDistanceLineToLine.
  rewrite (for_range_empty_line
             (fun p1 p2 dist =>
                for_range (size_sub (size line2) 1)
                  (fun j dist =>
                     q1 ← at_index line2 j;
                     q2 ← at_index line2 (j + 1);
                     mret (segment_pair_step ruler p1 p2 q1 q2 dist)) dist)).
  reflexivity.
Qed.

Lemma shortestDistanceLineToLine_empty_r (p1 p2 : Point)
    (line1 : line_string) (ruler : CheapRuler) :
  vector_ok (p1 :: p2 :: line1) ->
  shortestDistanceLineToLine (p1 :: p2 :: line1) [] ruler
  = Fault OutOfBounds.
Proof.
  intros Hok. unfold shortestDistanceLineToLine.
  rewrite (for_range_segments
             (fun p1 p2 dist =>
                for_range (size_sub (size (@nil Point)) 1)
                  (fun j dist =>
                     q1 ← at_index [] j;
                     q2 ← at_index [] (j + 1);
                     mret (segment_pair_step ruler p1 p2 q1 q2 dist)) dist))
    by (assumption || discriminate).
  cbn [segments tail zip zip_with fold_flow fst snd].
  rewrite (for_range_empty_line
             (fun q1 q2 dist =>
                mret (segment_pair_step ruler p1 p2 q1 q2 dist))).
  reflexivity.
Qed.

Lemma lineDistanceToGeometry_line_string (front : Point)
    (line line1 : line_string) (unit : Unit) :
  lineDistanceToGeometry (front :: line) (g_line_string line1) unit
  = shortestDistanceLineToLine (front :: line) line1
      (CheapRuler_new (y front) unit).
Proof. reflexivity. Qed.
End Bounds.

(** C9, as the specification states it, fails: with a line 1 of one vertex
    the outer loop does not run, so nothing is indexed even though line 2 is
    empty, and the function returns +infinity. *)
Lemma shortestDistanceLineToLine_single_vertex_empty :
  shortestDistanceLineToLine (Ruler := Planar.ruler) [mkPoint 0 0] [] ()
  = Ok infinity.
Proof. reflexivity. Qed.

(** C9, amended: [shortestDistanceLineToLine] indexes within bounds when both
    lines are non-empty.  The loop bound of an empty line wraps around to
    [2 ^ 64 - 1]; an empty line 1, and an empty line 2 when line 1 has at
    least two vertices, is indexed out of bounds, while a line 1 of one
    vertex is never indexed, whatever line 2.  [lineDistanceToGeometry] stops
    at its assertion on an empty line of its own but passes an empty
    reference line on, which is then indexed out of bounds. *)
Theorem shortestDistanceLineToLine_bounds `{Ruler : CheapRulerAPI}
    (ruler : CheapRuler) :
  (forall line1 line2,
     line1 <> [] -> line2 <> [] -> vector_ok line1 -> vector_ok line2 ->
     exists dist, shortestDistanceLineToLine line1 line2 ruler = Ok dist) /\
  size_sub (size (@nil Point)) 1 = 2 ^ 64 - 1 /\
  (forall line2,
     shortestDistanceLineToLine [] line2 ruler = Fault OutOfBounds) /\
  (forall p1 p2 line1,
     vector_ok (p1 :: p2 :: line1) ->
     shortestDistanceLineToLine (p1 :: p2 :: line1) [] ruler
     = Fault OutOfBounds) /\
  (forall p line2, shortestDistanceLineToLine [p] line2 ruler = Ok infinity) /\
  (forall geoSet unit,
     lineDistanceToGeometry [] geoSet unit = Fault AssertionFailed) /\
  (forall p1 p2 line unit,
     vector_ok (p1 :: p2 :: line) ->
     lineDistanceToGeometry (p1 :: p2 :: line) (g_line_string []) unit
     = Fault OutOfBounds).
Proof.
  split; [| split; [| split; [| split; [| split; [| split]]]]].
  - intros line1 line2 Hne1 Hne2 Hok1 Hok2.
    rewrite shortestDistanceLineToLine_eq by assumption. eexists; reflexivity.
  - apply size_sub_empty.
  - intros line2. apply shortestDistanceLineToLine_empty_l.
  - intros p1 p2 line1 Hok. apply shortestDistanceLineToLine_empty_r.
    exact Hok.
  - intros p line2. reflexivity.
  - intros geoSet unit. reflexivity.
  - intros p1 p2 line unit Hok. rewrite lineDistanceToGeometry_line_string.
    apply shortestDistanceLineToLine_empty_r. exact Hok.
Qed.

Lemma shortestDistanceLineToLine_bounds_witness :
  (exists dist,
     shortestDistanceLineToLine (Ruler := Planar.ruler)
       [mkPoint 0 0; mkPoint 1 1] [mkPoint 0 1; mkPoint 1 0] () = Ok dist) /\
  shortestDistanceLineToLine (Ruler := Planar.ruler)
    [mkPoint 0 0; mkPoint 1 1] [] () = Fault OutOfBounds.
Proof.
  destruct (shortestDistanceLineToLine_bounds (Ruler := Planar.ruler) ())
    as (Hin & _ & _ & Hempty & _).
  split.
  - apply Hin; [discriminate | discriminate | reflexivity | reflexivity].
  - apply Hempty. reflexivity.
Defined.

(** ** Empty collections *)

(** C10: the minimum-distance loops return +infinity on an empty
    collection: [shortestDistanceToPoints] and [shortestDistanceToLines],
    hence [pointDistanceToGeometry] on an empty multi-point or multi-line
    reference; the multi-point and multi-line branches of
    [lineDistanceToGeometry]; and the multi-point and multi-line branches of
    [calculateDistance], so that [evaluate] yields the number +infinity for
    a feature of type [Point] or [LineString] that converts to an empty
    collection. *)
Theorem empty_collections_give_infinity
    `{Ruler : CheapRulerAPI} `{Tile : TileAPI} :
  (forall point ruler, shortestDistanceToPoints point [] ruler = infinity) /\
  (forall point ruler, shortestDistanceToLines point [] ruler = infinity) /\
  (forall point unit,
     pointDistanceToGeometry point (g_multi_point []) unit = infinity /\
     pointDistanceToGeometry point (g_multi_line_string []) unit = infinity) /\
  (forall front line unit,
     lineDistanceToGeometry (front :: line) (g_multi_point []) unit
     = Ok infinity /\
     lineDistanceToGeometry (front :: line) (g_multi_line_string []) unit
     = Ok infinity) /\
  (forall feature canonical geoSet unit,
     convertGeometry feature canonical = g_multi_point [] \/
     convertGeometry feature canonical = g_multi_line_string [] ->
     calculateDistance feature canonical geoSet unit = Ok infinity) /\
  (forall self f c,
     getType f = FT_Point \/ getType f = FT_LineString ->
     convertGeometry f c = g_multi_point [] \/
     convertGeometry f c = g_multi_line_string [] ->
     evaluate self (mkEvaluationContext _ (Some f) (Some c))
     = Ok (EvaluationValue (E_number infinity))).
Proof.
  assert (Hcalc : forall feature canonical geoSet unit,
     convertGeometry feature canonical = g_multi_point [] \/
     convertGeometry feature canonical = g_multi_line_string [] ->
     calculateDistance feature canonical geoSet unit = Ok infinity).
  { intros feature canonical geoSet unit [Hconv | Hconv];
      unfold calculateDistance; rewrite Hconv; reflexivity. }
  repeat split; try reflexivity; try exact Hcalc.
  intros self f c Hty Hconv.
  rewrite (evaluate_number self (mkEvaluationContext _ (Some f) (Some c))
             f c eq_refl eq_refl Hty), Hcalc by exact Hconv.
  reflexivity.
Qed.

Lemma empty_collections_give_infinity_witness :
  evaluate (Ruler := Planar.ruler) (Tile := Sample.tile)
    (mkDistance (GJ_geometry (g_point (mkPoint 0 0))) (g_point (mkPoint 0 0))
       Meters)
    (mkEvaluationContext Sample.tile (Some (FT_Point, g_multi_point []))
       (Some ()))
  = Ok (EvaluationValue (E_number infinity)).
Proof.
  destruct (empty_collections_give_infinity (Ruler := Planar.ruler)
              (Tile := Sample.tile)) as (_ & _ & _ & _ & _ & Hev).
  apply (Hev _ (FT_Point, g_multi_point []) ()); left; reflexivity.
Defined.

(** ** Parsing *)

Section ParseProperties.
Context `{Conv : ConvertibleAPI} `{Visitor : FeatureTypeAPI}.

Lemma getGeometry_accepts (feature : Feature) (ctx : ParsingContext) :
  point_or_line (f_geometry feature) ->
  getGeometry feature ctx = (Some (f_geometry feature), ctx).
Proof.
  unfold point_or_line, getGeometry. intros [Hty | Hty]; rewrite Hty.
  - reflexivity.
  - reflexivity.
Qed.

Lemma getGeometry_rejects (feature : Feature) (ctx : ParsingContext) :
  ~ point_or_line (f_geometry feature) ->
  getGeometry feature ctx
  = (None,
     ctx_error
       "'distance' expression requires valid geojson source that contains Point/LineString geometry type."
       ctx).
Proof.
  unfold point_or_line, getGeometry. intros Hty.
  rewrite !bool_decide_eq_false_2 by tauto. reflexivity.
Qed.

(** The loop over a feature collection skips the features that are
    neither points nor lines and stops at the first that is one. *)
Lemma parse_features_first (parsedValue : Arguments)
    (pre : list Feature) (feature : Feature) (post : list Feature)
    (ctx : ParsingContext) :
  Forall (fun f => ~ point_or_line (f_geometry f)) pre ->
  point_or_line (f_geometry feature) ->
  (parse_features parsedValue (pre ++ feature :: post) ctx).1
  = Some (mkDistance (geojson parsedValue) (f_geometry feature)
            (arg_unit parsedValue)).
Proof.
  intros Hpre Hacc. revert ctx.
  induction Hpre as [| f pre Hf _ IH]; intros ctx; cbn [app parse_features].
  - rewrite getGeometry_accepts by assumption. reflexivity.
  - rewrite getGeometry_rejects by assumption. apply IH.
Qed.

Lemma parse_features_none (parsedValue : Arguments)
    (features : list Feature) (ctx : ParsingContext) :
  Forall (fun f => ~ point_or_line (f_geometry f)) features ->
  (parse_features parsedValue features ctx).1 = None.
Proof.
  intros Hall. revert ctx.
  induction Hall as [| f features Hf _ IH]; intros ctx; [reflexivity |].
  cbn [parse_features]. rewrite getGeometry_rejects by assumption. apply IH.
Qed.

(** The errors that the loop reports: one for every feature it skips. *)
Lemma parse_features_errors (parsedValue : Arguments)
    (features : list Feature) (ctx : ParsingContext) :
  Forall (fun f => ~ point_or_line (f_geometry f)) features ->
  (parse_features parsedValue features ctx).2
  = ctx ++ replicate (length features)
      "'distance' expression requires valid geojson source that contains Point/LineString geometry type."%string.
Proof.
  intros Hall. revert ctx.
  induction Hall as [| f features Hf _ IH]; intros ctx; cbn [parse_features].
  - cbn. rewrite app_nil_r. reflexivity.
  - rewrite getGeometry_rejects by assumption. rewrite IH.
    unfold ctx_error. rewrite <- app_assoc. reflexivity.
Qed.

Lemma parseValue_unit_eq (value : Convertible) :
  parseValue_unit value
  = if arrayLength value =? 3
    then match toString (arrayMember value 2) with
         | Some name => unit_named name
         | None => Meters
         end
    else Meters.
Proof.
  unfold parseValue_unit. destruct (arrayLength value =? 3); [| reflexivity].
  destruct (toString (arrayMember value 2)) as [name |]; [| reflexivity].
  cbn [from_option]. unfold id, unit_named.
  destruct (String.eqb_spec name "Meters");
    destruct (String.eqb_spec name "Metres");
    destruct (String.eqb_spec name "Kilometers");
    destruct (String.eqb_spec name "Miles");
    destruct (String.eqb_spec name "Inches");
    repeat case_decide; cbn [orb];
    first [reflexivity | exfalso; intuition congruence].
Qed.
End ParseProperties.

(** C5, as the specification states it, fails: [getGeometry] tests the
    feature type of the geometry, and a multi-point is of feature type
    [Point], a multi-line string of feature type [LineString].  So [parse]
    builds the node from a MultiPoint feature that comes before a Point
    feature, and accepts a document whose only geometry is a
    MultiLineString. *)
Lemma parse_accepts_multi_shapes :
  let multi := g_multi_point [mkPoint 0 0; mkPoint 1 1] in
  let collection :=
    GJ_feature_collection
      [Feature_of_geometry multi;
       Feature_of_geometry (g_point (mkPoint 2 2))] in
  let lines := g_multi_line_string [[mkPoint 0 0; mkPoint 1 1]] in
  (parse (Conv := Sample.doc) (Visitor := Sample.feature_type)
     (Sample.D_array
        [Sample.D_string "distance"; Sample.D_object (Some collection) ""])
     []).1
  = Some (mkDistance collection multi Meters) /\
  (parse (Conv := Sample.doc) (Visitor := Sample.feature_type)
     (Sample.D_array
        [Sample.D_string "distance";
         Sample.D_object (Some (GJ_geometry lines)) ""])
     []).1
  = Some (mkDistance (GJ_geometry lines) lines Meters).
Proof. split; reflexivity. Qed.

(** C5, amended: when the decoded document is a feature collection, [parse]
    builds the node from the geometry of the first feature whose geometry
    is of feature type [Point] or [LineString], whatever the other
    features; when no geometry of the document (a geometry, a feature, a
    feature collection) is of feature type [Point] or [LineString], [parse]
    yields no node and, the document holding a geometry, reports the
    geometry-type error for each of them. *)
Theorem parse_selects_first_point_or_line
    `{Conv : ConvertibleAPI} `{Visitor : FeatureTypeAPI}
    (value : Convertible) (ctx ctx1 : ParsingContext)
    (parsedValue : Arguments) :
  parseValue value ctx = (Some parsedValue, ctx1) ->
  (forall pre feature post,
     geojson parsedValue = GJ_feature_collection (pre ++ feature :: post) ->
     Forall (fun f => ~ point_or_line (f_geometry f)) pre ->
     point_or_line (f_geometry feature) ->
     (parse value ctx).1
     = Some (mkDistance (geojson parsedValue) (f_geometry feature)
               (arg_unit parsedValue))) /\
  (Forall (fun g => ~ point_or_line g)
     (document_geometries (geojson parsedValue)) ->
   (parse value ctx).1 = None /\
   (document_geometries (geojson parsedValue) <> [] ->
    exists errors,
      (parse value ctx).2 = ctx1 ++ geometry_type_error :: errors /\
      geometry_type_error :: errors
      = replicate (length (document_geometries (geojson parsedValue)))
          geometry_type_error)).
Proof.
  intros Hparsed. unfold parse. rewrite Hparsed. split.
  - intros pre feature post Hdoc Hpre Hacc. rewrite Hdoc.
    rewrite <- Hdoc at 1. apply parse_features_first; assumption.
  - intros Hnone.
    destruct (geojson parsedValue) as [g | f | fs];
      cbn [document_geometries] in Hnone |- *.
    + rewrite getGeometry_rejects by exact (Forall_inv Hnone).
      split; [reflexivity |]. intros _. exists []. split; reflexivity.
    + rewrite getGeometry_rejects by exact (Forall_inv Hnone).
      split; [reflexivity |]. intros _. exists []. split; reflexivity.
    + rewrite Forall_fmap in Hnone. split.
      * apply parse_features_none. exact Hnone.
      * intros Hsome. rewrite parse_features_errors by exact Hnone.
        rewrite length_fmap.
        destruct fs as [| f fs]; [contradiction Hsome; reflexivity |].
        exists (replicate (length fs) geometry_type_error).
        split; reflexivity.
Qed.

Lemma parse_selects_first_point_or_line_witness :
  let polygon_feature := Feature_of_geometry (g_polygon []) in
  let line := g_line_string [mkPoint 0 0; mkPoint 1 1] in
  let document :=
    GJ_feature_collection
      [polygon_feature; Feature_of_geometry line;
       Feature_of_geometry (g_point (mkPoint 2 2))] in
  (parse (Conv := Sample.doc) (Visitor := Sample.feature_type)
     (Sample.D_array
        [Sample.D_string "distance"; Sample.D_object (Some document) ""])
     []).1
  = Some (mkDistance document line Meters).
Proof.
  intros polygon_feature line document.
  destruct (parse_selects_first_point_or_line
              (Conv := Sample.doc) (Visitor := Sample.feature_type)
              (Sample.D_array
                 [Sample.D_string "distance";
                  Sample.D_object (Some document) ""])
              [] [] (mkArguments document Meters) eq_refl) as [Hfirst _].
  apply (Hfirst [polygon_feature] (Feature_of_geometry line)
           [Feature_of_geometry (g_point (mkPoint 2 2))] eq_refl).
  - constructor; [| constructor]. intros [Hty | Hty]; discriminate Hty.
  - right. reflexivity.
Defined.

(** C6: whenever the reference document decodes, [parseValue] succeeds and
    reports nothing, whatever the third argument.  With three elements the
    unit is the one that the third argument names, compared
    case-sensitively: "Meters" and "Metres" give [Meters], "Kilometers"
    gives [Kilometers], "Miles" gives [Miles], "Inches" gives [Inches], and
    every other string, like every value that is not a string, gives
    [Meters]; with two elements the unit is [Meters]. *)
Theorem parseValue_unit_selection `{Conv : ConvertibleAPI}
    (value : Convertible) (ctx : ParsingContext) (document : GeoJSON) :
  isArray value = true ->
  isObject (arrayMember value 1) = true ->
  toGeoJSON (arrayMember value 1) = (Some document, ""%string) ->
  (arrayLength value = 3 ->
   parseValue value ctx
   = (Some (mkArguments document
              match toString (arrayMember value 2) with
              | Some name => unit_named name
              | None => Meters
              end), ctx)) /\
  (arrayLength value = 2 ->
   parseValue value ctx = (Some (mkArguments document Meters), ctx)) /\
  unit_named "Meters" = Meters /\ unit_named "Metres" = Meters /\
  unit_named "Kilometers" = Kilometers /\ unit_named "Miles" = Miles /\
  unit_named "Inches" = Inches /\
  (forall name, name ∉ unit_names -> unit_named name = Meters).
Proof.
  intros Harray Hobject Hdecode.
  assert (Hparse : arrayLength value = 2 \/ arrayLength value = 3 ->
            parseValue value ctx
            = (Some (mkArguments document (parseValue_unit value)), ctx)).
  { intros Hlen. unfold parseValue. rewrite Harray, Hobject, Hdecode.
    destruct Hlen as [Hlen | Hlen]; rewrite Hlen; reflexivity. }
  split; [| split; [| repeat split]].
  - intros Hlen. rewrite Hparse by (right; exact Hlen).
    rewrite parseValue_unit_eq, Hlen. reflexivity.
  - intros Hlen. rewrite Hparse by (left; exact Hlen).
    rewrite parseValue_unit_eq, Hlen. reflexivity.
  - intros name Hname. unfold unit_names in Hname. unfold unit_named.
    repeat case_decide; try reflexivity; exfalso; apply Hname;
      set_solver.
Qed.

Lemma parseValue_unit_selection_witness :
  let document := GJ_geometry (g_point (mkPoint 0 0)) in
  parseValue (Conv := Sample.doc)
    (Sample.D_array
       [Sample.D_string "distance"; Sample.D_object (Some document) "";
        Sample.D_string "Kilometers"]) []
  = (Some (mkArguments document Kilometers), []) /\
  parseValue (Conv := Sample.doc)
    (Sample.D_array
       [Sample.D_string "distance"; Sample.D_object (Some document) "";
        Sample.D_string "kilometers"]) []
  = (Some (mkArguments document Meters), []) /\
  parseValue (Conv := Sample.doc)
    (Sample.D_array
       [Sample.D_string "distance"; Sample.D_object (Some document) "";
        Sample.D_number 3]) []
  = (Some (mkArguments document Meters), []) /\
  parseValue (Conv := Sample.doc)
    (Sample.D_array
       [Sample.D_string "distance"; Sample.D_object (Some document) ""]) []
  = (Some (mkArguments document Meters), []).
Proof.
  intros document. split; [| split; [| split]].
  - exact (proj1 (parseValue_unit_selection (Conv := Sample.doc)
             (Sample.D_array
                [Sample.D_string "distance";
                 Sample.D_object (Some document) "";
                 Sample.D_string "Kilometers"]) [] document
             eq_refl eq_refl eq_refl) eq_refl).
  - exact (proj1 (parseValue_unit_selection (Conv := Sample.doc)
             (Sample.D_array
                [Sample.D_string "distance";
                 Sample.D_object (Some document) "";
                 Sample.D_string "kilometers"]) [] document
             eq_refl eq_refl eq_refl) eq_refl).
  - exact (proj1 (parseValue_unit_selection (Conv := Sample.doc)
             (Sample.D_array
                [Sample.D_string "distance";
                 Sample.D_object (Some document) "";
                 Sample.D_number 3]) [] document
             eq_refl eq_refl eq_refl) eq_refl).
  - exact (proj1 (proj2 (parseValue_unit_selection (Conv := Sample.doc)
             (Sample.D_array
                [Sample.D_string "distance";
                 Sample.D_object (Some document) ""]) [] document
             eq_refl eq_refl eq_refl)) eq_refl).
Defined.

(** ** Serialization *)

Lemma emplace_union {A} (k : string) (a : A) (m rest : gmap string A) :
  emplace k a m ∪ rest = m ∪ <[k := a]> rest.
Proof.
  unfold emplace. destruct (m !! k) as [b |] eqn:Hk.
  - apply map_eq. intros i. rewrite !lookup_union.
    destruct (decide (i = k)) as [-> | Hne].
    + rewrite Hk, lookup_insert_eq. destruct (rest !! k); reflexivity.
    + rewrite lookup_insert_ne by congruence. reflexivity.
  - rewrite <- insert_union_l. rewrite insert_union_r by exact Hk.
    reflexivity.
Qed.

(** Emplacing the members one after the other keeps, for every name, the
    first member of that name: the map [list_to_map] makes of them. *)
Lemma foldl_emplace {A B} (name : string -> string) (g : B -> A)
    (members : list (string * B)) (m : gmap string A) :
  foldl (fun result member => emplace (name member.1) (g member.2) result)
        m members
  = m ∪ list_to_map
          ((fun member => (name member.1, g member.2)) <$> members).
Proof.
  revert m. induction members as [| [k b] members IH]; intros m.
  - cbn. rewrite (right_id ∅ (∪)). reflexivity.
  - cbn [foldl fmap list_fmap list_to_map foldr fst snd]. rewrite IH.
    apply emplace_union.
Qed.

Lemma c_str_nul_free (s : string) : has_nul s = false -> c_str s = s.
Proof.
  induction s as [| c s IH]; [reflexivity |]. cbn [has_nul c_str].
  destruct (Ascii.eqb c Ascii.zero); [discriminate |].
  cbn [orb]. intros Hs. rewrite IH by exact Hs. reflexivity.
Qed.

Lemma find_emplace_lookup {A} (g : rapidjson_value -> A)
    (members : list (string * rapidjson_value)) (m : gmap string A)
    (key : string) :
  foldl (fun result member => emplace (c_str member.1) (g member.2) result)
        m members !! key
  = match m !! key with
    | Some a => Some a
    | None => g <$> first_member key members
    end.
Proof.
  revert m. induction members as [| [name v] members IH]; intros m.
  - cbn. destruct (m !! key); reflexivity.
  - cbn [foldl fst snd]. rewrite IH. unfold first_member, emplace.
    cbn [find fst snd].
    destruct (String.eqb_spec (c_str name) key) as [-> | Hne].
    + destruct (m !! key) as [a |] eqn:Hm; [rewrite Hm; reflexivity |].
      rewrite lookup_insert_eq. reflexivity.
    + destruct (m !! c_str name) eqn:Hname; [reflexivity |].
      rewrite lookup_insert_ne by exact Hne. reflexivity.
Qed.

(** C7: [serialize] returns a sequence of two elements, the operator name
    "distance" and the encoding of the stored document [geoJSONSource]: the
    conversion of the object that [mapbox::geojson::convert] makes of it, in
    which every key holds the conversion of the first member of that name
    and no other key is present (the empty object when the converted
    document is not an object).  Neither the parsed geometry nor the unit
    takes part: two nodes with the same document serialize alike. *)
Theorem serialize_spec `{Codec : SerializeAPI} :
  (forall self, exists encoding,
     (serialize self).1 = V_array [V_string "distance"; encoding]) /\
  (forall self members,
     geojson_convert (geoJSONSource self) = RJ_Object members ->
     (serialize self).1
     = V_array [V_string "distance";
                fromExpressionValue (convertValue (RJ_Object members))]) /\
  (forall self members,
     geojson_convert (geoJSONSource self) = RJ_Object members ->
     exists m,
       (serialize self).1
       = V_array [V_string "distance"; fromExpressionValue (E_object m)] /\
       forall key, m !! key = convertValue <$> first_member key members) /\
  (forall self,
     (forall members,
        geojson_convert (geoJSONSource self) <> RJ_Object members) ->
     (serialize self).1
     = V_array [V_string "distance"; fromExpressionValue (E_object ∅)]) /\
  (forall source geometries1 unit1 geometries2 unit2,
     serialize (mkDistance source geometries1 unit1)
     = serialize (mkDistance source geometries2 unit2)).
Proof.
  split; [| split; [| split; [| split]]].
  - intros self. unfold serialize.
    destruct (geojson_convert (geoJSONSource self));
      eexists; reflexivity.
  - intros self members Hconv. unfold serialize. rewrite Hconv. reflexivity.
  - intros self members Hconv. unfold serialize. rewrite Hconv. cbn [fst].
    eexists. split; [reflexivity |]. intros key.
    rewrite find_emplace_lookup, lookup_empty. reflexivity.
  - intros self Hnot. unfold serialize.
    destruct (geojson_convert (geoJSONSource self)) as [| | | members | | | |];
      try reflexivity.
    destruct (Hnot members eq_refl).
  - reflexivity.
Qed.

(** C8, as the specification states it, fails: a number that the document
    holds as an integer is not a double for [convertValue], which turns it
    into the null placeholder; and a string is read as a C string, so one
    that holds a NUL character loses what follows it. *)
Lemma convertValue_integer_is_null :
  convertValue (RJ_Integer 5) = Null /\
  (forall d, convertValue (RJ_Integer 5) <> E_number d) /\
  convertValue (RJ_String (String "a"%char (String Ascii.zero "b")))
  = E_string "a".
Proof. split; [reflexivity | split; [discriminate | reflexivity]]. Qed.

(** C8, amended: [convertValue] turns a number held as a double into that
    number, a string free of NUL characters into that string, an array into
    the sequence of its converted elements, an object whose member names are
    free of NUL characters into the keyed mapping of its converted members
    (for a name that occurs twice the first member stands), and every other
    value (null, the booleans, a number held as an integer) into the null
    placeholder. *)
Theorem convertValue_spec (v : rapidjson_value) :
  match v with
  | RJ_Double d => convertValue v = E_number d
  | RJ_String s => has_nul s = false -> convertValue v = E_string s
  | RJ_Array elements => convertValue v = E_array (convertValue <$> elements)
  | RJ_Object members =>
      Forall (fun member => has_nul member.1 = false) members ->
      convertValue v
      = E_object
          (list_to_map
             ((fun member => (member.1, convertValue member.2)) <$> members))
  | RJ_Null | RJ_False | RJ_True | RJ_Integer _ => convertValue v = Null
  end.
Proof.
  destruct v as [| | | members | elements | s | n | d]; try reflexivity.
  - intros Hnames. cbn [convertValue].
    rewrite (foldl_emplace c_str convertValue members ∅).
    rewrite (left_id ∅ (∪)). do 2 f_equal.
    apply list_fmap_ext. intros _ member Hin%list_elem_of_lookup_2.
    rewrite Forall_forall in Hnames.
    rewrite (c_str_nul_free member.1) by (apply Hnames; exact Hin).
    reflexivity.
  - intros Hs. cbn [convertValue]. rewrite c_str_nul_free by exact Hs.
    reflexivity.
Qed.

Lemma convertValue_spec_witness :
  convertValue (RJ_String "Feature") = E_string "Feature" /\
  convertValue (RJ_Object [("type"%string, RJ_String "Point");
                           ("coordinates"%string,
                            RJ_Array [RJ_Double 1; RJ_Double 2])])
  = E_object (list_to_map
                [("type"%string, E_string "Point");
                 ("coordinates"%string,
                  E_array [E_number 1; E_number 2])]).
Proof.
  split.
  - exact (convertValue_spec (RJ_String "Feature") eq_refl).
  - apply (convertValue_spec
             (RJ_Object [("type"%string, RJ_String "Point");
                         ("coordinates"%string,
                          RJ_Array [RJ_Double 1; RJ_Double 2])])).
    repeat constructor.
Defined.

(** ** The order of binary64 values *)

Lemma SFcompare_lt_trans (f1 f2 f3 : spec_float) :
  SFcompare f1 f2 = Some Lt -> SFcompare f2 f3 = Some Lt ->
  SFcompare f1 f3 = Some Lt.
Proof.
  destruct f1 as [[] | [] | | [] m1 e1], f2 as [[] | [] | | [] m2 e2],
    f3 as [[] | [] | | [] m3 e3]; cbn;
    try discriminate; try reflexivity;
    rewrite ?Pos.compare_cont_spec; cbn;
    destruct (Z.compare_spec e1 e2), (Z.compare_spec e2 e3),
      (Z.compare_spec e1 e3); try discriminate; try reflexivity; try lia;
    destruct (Pos.compare_spec m1 m2), (Pos.compare_spec m2 m3),
      (Pos.compare_spec m1 m3); cbn;
    try discriminate; try reflexivity; lia.
Qed.

Lemma SFcompare_refl (f : spec_float) :
  f <> S754_nan -> SFcompare f f = Some Eq.
Proof.
  destruct f as [[] | [] | | [] m e]; cbn; try reflexivity; try congruence;
    intros _; rewrite Z.compare_refl, Pos.compare_cont_refl; reflexivity.
Qed.

Lemma SFcompare_lt_asym (f1 f2 : spec_float) :
  SFcompare f1 f2 = Some Lt -> SFcompare f2 f1 = Some Gt.
Proof.
  destruct f1 as [[] | [] | | [] m1 e1], f2 as [[] | [] | | [] m2 e2]; cbn;
    try discriminate; try reflexivity;
    rewrite ?Pos.compare_cont_spec; cbn;
    rewrite (Z.compare_antisym e1 e2), (Pos.compare_antisym m1 m2);
    destruct (e1 ?= e2)%Z, (m1 ?= m2)%positive; cbn;
    try discriminate; reflexivity.
Qed.

Lemma is_nan_spec (v : double) :
  PrimFloat.is_nan v = true <-> Prim2SF v = S754_nan.
Proof.
  unfold PrimFloat.is_nan. rewrite FloatAxioms.eqb_spec. unfold SFeqb. split.
  - intros Hv. destruct (Prim2SF v) eqn:Hsf; try reflexivity;
      rewrite SFcompare_refl in Hv by discriminate; discriminate Hv.
  - intros ->. reflexivity.
Qed.

Lemma ltb_trans (a b c : double) :
  (a <? b)%float = true -> (b <? c)%float = true -> (a <? c)%float = true.
Proof.
  rewrite !FloatAxioms.ltb_spec. unfold SFltb. intros Hab Hbc.
  rewrite (SFcompare_lt_trans (Prim2SF a) (Prim2SF b) (Prim2SF c)).
  - reflexivity.
  - destruct (SFcompare (Prim2SF a) (Prim2SF b)) as [[] |];
      try discriminate Hab; reflexivity.
  - destruct (SFcompare (Prim2SF b) (Prim2SF c)) as [[] |];
      try discriminate Hbc; reflexivity.
Qed.

Lemma ltb_asym (a b : double) :
  (a <? b)%float = true -> (b <? a)%float = false.
Proof.
  rewrite !FloatAxioms.ltb_spec. unfold SFltb. intros Hab.
  rewrite (SFcompare_lt_asym (Prim2SF a) (Prim2SF b)); [reflexivity |].
  destruct (SFcompare (Prim2SF a) (Prim2SF b)) as [[] |];
    try discriminate Hab; reflexivity.
Qed.

Lemma ltb_irrefl (a : double) : (a <? a)%float = false.
Proof.
  destruct (a <? a)%float eqn:Haa; [| reflexivity].
  rewrite (ltb_asym a a Haa) in Haa. discriminate Haa.
Qed.

Lemma ltb_not_nan_l (a b : double) :
  (a <? b)%float = true -> PrimFloat.is_nan a = false.
Proof.
  intros Hab. apply not_true_is_false. rewrite is_nan_spec. intros Hnan.
  rewrite FloatAxioms.ltb_spec, Hnan in Hab. discriminate Hab.
Qed.

Lemma eqb_not_nan_l (a b : double) :
  (a =? b)%float = true -> PrimFloat.is_nan a = false.
Proof.
  intros Hab. apply not_true_is_false. rewrite is_nan_spec. intros Hnan.
  rewrite FloatAxioms.eqb_spec, Hnan in Hab. discriminate Hab.
Qed.

Lemma ltb_nan_l (a b : double) :
  PrimFloat.is_nan a = true -> (a <? b)%float = false.
Proof.
  rewrite is_nan_spec, FloatAxioms.ltb_spec. intros ->. reflexivity.
Qed.

Lemma ltb_nan_r (a b : double) :
  PrimFloat.is_nan b = true -> (a <? b)%float = false.
Proof.
  rewrite is_nan_spec, FloatAxioms.ltb_spec. intros ->.
  unfold SFltb. destruct (Prim2SF a); reflexivity.
Qed.

Lemma sub_nan (a b : double) :
  PrimFloat.is_nan a = true \/ PrimFloat.is_nan b = true ->
  PrimFloat.is_nan (a - b) = true.
Proof.
  rewrite !is_nan_spec, FloatAxioms.sub_spec.
  intros [-> | ->]; [reflexivity |]. destruct (Prim2SF a); reflexivity.
Qed.

Lemma mul_nan (a b : double) :
  PrimFloat.is_nan a = true \/ PrimFloat.is_nan b = true ->
  PrimFloat.is_nan (a * b) = true.
Proof.
  rewrite !is_nan_spec, FloatAxioms.mul_spec.
  intros [-> | ->]; [reflexivity |]. destruct (Prim2SF a); reflexivity.
Qed.

(** ** Minimum loops *)

Lemma std_min_cases (a b : double) :
  (std_min a b = a /\ (b <? a)%float = false) \/
  (std_min a b = b /\ (b <? a)%float = true).
Proof. unfold std_min. destruct (b <? a)%float; auto. Qed.

(** The running minimum only goes down. *)
Lemma foldl_std_min_le (ds : list double) (a : double) :
  foldl std_min a ds = a \/ (foldl std_min a ds <? a)%float = true.
Proof.
  revert a. induction ds as [| b ds IH]; intros a; [left; reflexivity |].
  cbn [foldl].
  destruct (IH (std_min a b)) as [Hr | Hr],
    (std_min_cases a b) as [[Hm Hba] | [Hm Hba]]; rewrite Hm in Hr |- *.
  - left. exact Hr.
  - right. rewrite Hr. exact Hba.
  - right. exact Hr.
  - right. exact (ltb_trans _ _ _ Hr Hba).
Qed.

(** It is the seed or one of the values. *)
Lemma foldl_std_min_in (ds : list double) (a : double) :
  foldl std_min a ds ∈ a :: ds.
Proof.
  revert a. induction ds as [| b ds IH]; intros a; [apply list_elem_of_here |].
  cbn [foldl]. specialize (IH (std_min a b)).
  rewrite elem_of_cons in IH. rewrite !elem_of_cons.
  destruct (std_min_cases a b) as [[Hm _] | [Hm _]]; rewrite Hm in IH |- *;
    tauto.
Qed.

(** No value, nor the seed, is strictly below it. *)
Lemma foldl_std_min_lower (ds : list double) (a d : double) :
  d ∈ a :: ds -> (d <? foldl std_min a ds)%float = false.
Proof.
  revert a. induction ds as [| b ds IH]; intros a Hd.
  - apply list_elem_of_singleton in Hd as ->. apply ltb_irrefl.
  - cbn [foldl].
    assert (Hseed : forall e, (e <? std_min a b)%float = false ->
              (e <? foldl std_min (std_min a b) ds)%float = false).
    { intros e He.
      destruct (foldl_std_min_le ds (std_min a b)) as [-> | Hr]; [exact He |].
      apply not_true_is_false. intros Her.
      rewrite (ltb_trans _ _ _ Her Hr) in He. discriminate He. }
    apply elem_of_cons in Hd as [-> | Hd];
      [| apply elem_of_cons in Hd as [-> | Hd]].
    + apply Hseed.
      destruct (std_min_cases a b) as [[-> _] | [-> Hba]];
        [apply ltb_irrefl | exact (ltb_asym _ _ Hba)].
    + apply Hseed.
      destruct (std_min_cases a b) as [[-> Hba] | [-> _]];
        [exact Hba | apply ltb_irrefl].
    + apply IH. apply list_elem_of_further. exact Hd.
Qed.

Lemma foldl_std_min_not_nan (ds : list double) (a : double) :
  PrimFloat.is_nan a = false -> PrimFloat.is_nan (foldl std_min a ds) = false.
Proof.
  intros Ha. destruct (foldl_std_min_le ds a) as [-> | Hr]; [exact Ha |].
  exact (ltb_not_nan_l _ _ Hr).
Qed.

(** Comparing with a zero of either sign is comparing with [0]. *)
Lemma ltb_zero_r (d z : double) :
  (z =? 0)%float = true -> (d <? z)%float = (d <? 0)%float.
Proof.
  rewrite FloatAxioms.eqb_spec, !FloatAxioms.ltb_spec.
  change (Prim2SF 0) with (S754_zero false).
  destruct (Prim2SF z) as [s | [] | | [] m e]; cbn; try discriminate;
    intros _; destruct (Prim2SF d) as [? | ? | | ? ? ?]; reflexivity.
Qed.

Lemma min_until_zero_no_zero (ds : list double) (dist : double) :
  Forall (fun d => (d =? 0)%float = false) ds ->
  min_until_zero ds dist = foldl std_min dist ds.
Proof.
  intros Hds. revert dist.
  induction Hds as [| d ds Hd _ IH]; intros dist; [reflexivity |].
  cbn [min_until_zero foldl]. rewrite Hd. apply IH.
Qed.

Lemma min_until_zero_zero (ds : list double) (dist : double) :
  Exists (fun d => (d =? 0)%float = true) ds ->
  (min_until_zero ds dist =? 0)%float = true.
Proof.
  intros Hds. revert dist.
  induction ds as [| d ds IH]; intros dist; [inversion Hds |].
  cbn [min_until_zero]. destruct (d =? 0)%float eqn:Hd; [exact Hd |].
  apply IH. inversion Hds as [? ? Hz | ? ? Hz]; subst; [congruence | exact Hz].
Qed.

Lemma min_until_zero_in (ds : list double) (dist : double) :
  min_until_zero ds dist ∈ dist :: ds.
Proof.
  revert dist. induction ds as [| d ds IH]; intros dist;
    [apply list_elem_of_here |].
  cbn [min_until_zero]. rewrite !elem_of_cons.
  destruct (d =? 0)%float; [tauto |].
  specialize (IH (std_min dist d)). rewrite elem_of_cons in IH.
  destruct (std_min_cases dist d) as [[Hm _] | [Hm _]]; rewrite Hm in IH |- *;
    tauto.
Qed.

Lemma min_until_zero_not_nan (ds : list double) (dist : double) :
  PrimFloat.is_nan dist = false ->
  PrimFloat.is_nan (min_until_zero ds dist) = false.
Proof.
  revert dist. induction ds as [| d ds IH]; intros dist Hdist; [exact Hdist |].
  cbn [min_until_zero]. destruct (d =? 0)%float eqn:Hd.
  - exact (eqb_not_nan_l _ _ Hd).
  - apply IH. destruct (std_min_cases dist d) as [[-> _] | [-> Hlt]];
      [exact Hdist | exact (ltb_not_nan_l _ _ Hlt)].
Qed.

(** When no value is negative, none is strictly below the result. *)
Lemma min_until_zero_lower (ds : list double) (dist d : double) :
  Forall (fun d => (d <? 0)%float = false) ds ->
  d ∈ ds -> (d <? min_until_zero ds dist)%float = false.
Proof.
  intros Hpos Hd.
  destruct (Exists_dec (fun d => (d =? 0)%float = true) ds) as [Hz | Hnz].
  - rewrite (ltb_zero_r d _ (min_until_zero_zero ds dist Hz)).
    rewrite Forall_forall in Hpos. apply Hpos. exact Hd.
  - rewrite min_until_zero_no_zero.
    + apply foldl_std_min_lower. apply list_elem_of_further. exact Hd.
    + apply Forall_forall. intros e He. apply not_true_is_false. intros Hez.
      apply Hnz. apply Exists_exists. exists e. split; assumption.
Qed.

(** ** Nearest member of a collection *)

Section Nearest.
Context `{Ruler : CheapRulerAPI}.

Lemma shortestDistanceToPoints_from_eq (point : Point) (points : multi_point)
    (ruler : CheapRuler) (dist : double) :
  shortestDistanceToPoints_from point points ruler dist
  = min_until_zero (ruler_distance ruler point <$> points) dist.
Proof.
  revert dist. induction points as [| p points IH]; intros dist; [reflexivity |].
  cbn [shortestDistanceToPoints_from fmap list_fmap min_until_zero].
  rewrite IH. reflexivity.
Qed.

Lemma shortestDistanceToLines_from_eq (point : Point)
    (lines : multi_line_string) (ruler : CheapRuler) (dist : double) :
  shortestDistanceToLines_from point lines ruler dist
  = min_until_zero
      ((fun line => shortestDistanceToLine point line ruler) <$> lines) dist.
Proof.
  revert dist. induction lines as [| l lines IH]; intros dist; [reflexivity |].
  cbn [shortestDistanceToLines_from fmap list_fmap min_until_zero].
  rewrite IH. reflexivity.
Qed.
End Nearest.

Lemma infinity_not_nan : PrimFloat.is_nan infinity = false.
Proof. reflexivity. Qed.

(** What the minimum searches that stop at a zero return over a
    collection measured by [f], from +infinity. *)
Lemma min_until_zero_nearest {A} (f : A -> double) (members : list A) :
  Forall (fun a => (f a <? 0)%float = false) members ->
  let r := min_until_zero (f <$> members) infinity in
  (forall a, a ∈ members -> (f a <? r)%float = false) /\
  (r = infinity \/ exists a, a ∈ members /\ r = f a) /\
  PrimFloat.is_nan r = false.
Proof.
  intros Hpos r. split; [| split].
  - intros a Ha. apply min_until_zero_lower.
    + rewrite Forall_fmap. exact Hpos.
    + apply list_elem_of_fmap_2. exact Ha.
  - pose proof (min_until_zero_in (f <$> members) infinity) as Hin.
    apply elem_of_cons in Hin as [Hin | Hin]; [left; exact Hin | right].
    apply list_elem_of_fmap in Hin as (a & Hr & Ha). exists a. auto.
  - apply min_until_zero_not_nan, infinity_not_nan.
Qed.

(** X1: when the ruler gives no negative distance to the points of a
    multi-point, no point is strictly nearer than what
    [shortestDistanceToPoints] returns; the result is +infinity or the
    distance of one of the points, and it is never NaN. *)
Theorem shortestDistanceToPoints_nearest `{Ruler : CheapRulerAPI}
    (point : Point) (points : multi_point) (ruler : CheapRuler) :
  Forall (fun p => (ruler_distance ruler point p <? 0)%float = false) points ->
  let r := shortestDistanceToPoints point points ruler in
  (forall p, p ∈ points -> (ruler_distance ruler point p <? r)%float = false) /\
  (r = infinity \/ exists p, p ∈ points /\ r = ruler_distance ruler point p) /\
  PrimFloat.is_nan r = false.
Proof.
  intros Hpos. unfold shortestDistanceToPoints.
  rewrite shortestDistanceToPoints_from_eq.
  exact (min_until_zero_nearest (ruler_distance ruler point) points Hpos).
Qed.

Lemma shortestDistanceToPoints_nearest_witness :
  shortestDistanceToPoints (Ruler := Planar.ruler) (mkPoint 0 0)
    [mkPoint 3 4; mkPoint 0 2; mkPoint 6 8] () = 2%float /\
  (Planar.distance (mkPoint 0 0) (mkPoint 3 4) <? 2)%float = false.
Proof.
  split; [reflexivity |].
  exact (proj1 (shortestDistanceToPoints_nearest (Ruler := Planar.ruler)
                  (mkPoint 0 0) [mkPoint 3 4; mkPoint 0 2; mkPoint 6 8] ()
                  ltac:(repeat constructor))
           (mkPoint 3 4) (list_elem_of_here _ _)).
Defined.

(** X2: when the ruler gives no negative distance to the lines of a
    multi-line, no line is strictly nearer than what
    [shortestDistanceToLines] returns; the result is +infinity or the
    distance of one of the lines, and it is never NaN. *)
Theorem shortestDistanceToLines_nearest `{Ruler : CheapRulerAPI}
    (point : Point) (lines : multi_line_string) (ruler : CheapRuler) :
  Forall (fun line =>
            (shortestDistanceToLine point line ruler <? 0)%float = false)
         lines ->
  let r := shortestDistanceToLines point lines ruler in
  (forall line, line ∈ lines ->
     (shortestDistanceToLine point line ruler <? r)%float = false) /\
  (r = infinity \/
   exists line, line ∈ lines /\ r = shortestDistanceToLine point line ruler) /\
  PrimFloat.is_nan r = false.
Proof.
  intros Hpos. unfold shortestDistanceToLines.
  rewrite shortestDistanceToLines_from_eq.
  exact (min_until_zero_nearest
           (fun line => shortestDistanceToLine point line ruler) lines Hpos).
Qed.

Lemma shortestDistanceToLines_nearest_witness :
  shortestDistanceToLines (Ruler := Planar.ruler) (mkPoint 0 0)
    [[mkPoint 0 3; mkPoint 4 3]; [mkPoint 1 (-1); mkPoint 1 1]] ()
  = 1%float /\
  (shortestDistanceToLine (Ruler := Planar.ruler) (mkPoint 0 0)
     [mkPoint 0 3; mkPoint 4 3] () <? 1)%float = false.
Proof.
  split; [reflexivity |].
  exact (proj1 (shortestDistanceToLines_nearest (Ruler := Planar.ruler)
                  (mkPoint 0 0)
                  [[mkPoint 0 3; mkPoint 4 3]; [mkPoint 1 (-1); mkPoint 1 1]]
                  () ltac:(repeat constructor))
           [mkPoint 0 3; mkPoint 4 3] (list_elem_of_here _ _)).
Defined.

(** X3: zero is absorbing: as soon as one member of the collection is at a
    distance equal to zero, [shortestDistanceToPoints] and
    [shortestDistanceToLines] return a zero, whatever the other distances
    are. *)
Theorem zero_distance_is_absorbing `{Ruler : CheapRulerAPI}
    (point : Point) (ruler : CheapRuler) :
  (forall points,
     Exists (fun p => (ruler_distance ruler point p =? 0)%float = true)
            points ->
     (shortestDistanceToPoints point points ruler =? 0)%float = true) /\
  (forall lines,
     Exists (fun line =>
               (shortestDistanceToLine point line ruler =? 0)%float = true)
            lines ->
     (shortestDistanceToLines point lines ruler =? 0)%float = true).
Proof.
  split.
  - intros points Hz. unfold shortestDistanceToPoints.
    rewrite shortestDistanceToPoints_from_eq. apply min_until_zero_zero.
    rewrite Exists_fmap. exact Hz.
  - intros lines Hz. unfold shortestDistanceToLines.
    rewrite shortestDistanceToLines_from_eq. apply min_until_zero_zero.
    rewrite Exists_fmap. exact Hz.
Qed.

Lemma zero_distance_is_absorbing_witness :
  (shortestDistanceToPoints (Ruler := Planar.ruler) (mkPoint 1 1)
     [mkPoint 3 4; mkPoint 1 1; mkPoint 0 0] () =? 0)%float = true.
Proof.
  apply (proj1 (zero_distance_is_absorbing (Ruler := Planar.ruler)
                  (mkPoint 1 1) ())).
  apply Exists_cons_tl, Exists_cons_hd. reflexivity.
Defined.

(** ** Line-to-line distance: crossing, nearest, single vertex *)

(** X4: when both lines have a vertex and some segment of the one
    intersects some segment of the other, [shortestDistanceLineToLine]
    returns exactly 0, whatever the ruler measures. *)
Theorem shortestDistanceLineToLine_crossing `{Ruler : CheapRulerAPI}
    (line1 line2 : line_string) (ruler : CheapRuler) :
  usable_line line1 -> usable_line line2 ->
  existsb segments_intersect (segment_pairs line1 line2) = true ->
  shortestDistanceLineToLine line1 line2 ruler = Ok 0%float.
Proof.
  intros [Hne1 Hok1] [Hne2 Hok2] Hcross.
  rewrite shortestDistanceLineToLine_eq by assumption.
  rewrite Hcross. reflexivity.
Qed.

Lemma shortestDistanceLineToLine_crossing_witness :
  shortestDistanceLineToLine (Ruler := Planar.ruler)
    [mkPoint 5 5; mkPoint 0 0; mkPoint 1 1]
    [mkPoint 9 9; mkPoint 0 1; mkPoint 1 0] () = Ok 0%float.
Proof.
  apply (shortestDistanceLineToLine_crossing (Ruler := Planar.ruler)).
  - split; [discriminate | reflexivity].
  - split; [discriminate | reflexivity].
  - reflexivity.
Defined.

(** X5: when both lines have a vertex and no segment pair intersects,
    [shortestDistanceLineToLine] returns a distance below which none of the
    distances it accumulates lies (for every segment pair: p1 and p2 to
    (q1,q2), q1 to (p1,p2)); the result is +infinity or one of these
    distances, and it is never NaN. *)
Theorem shortestDistanceLineToLine_nearest `{Ruler : CheapRulerAPI}
    (line1 line2 : line_string) (ruler : CheapRuler) :
  usable_line line1 -> usable_line line2 ->
  existsb segments_intersect (segment_pairs line1 line2) = false ->
  exists r,
    shortestDistanceLineToLine line1 line2 ruler = Ok r /\
    (forall pq d,
       pq ∈ segment_pairs line1 line2 ->
       d ∈ accumulated_distances ruler pq -> (d <? r)%float = false) /\
    (r = infinity \/
     exists pq, pq ∈ segment_pairs line1 line2 /\
                r ∈ accumulated_distances ruler pq) /\
    PrimFloat.is_nan r = false.
Proof.
  intros [Hne1 Hok1] [Hne2 Hok2] Hcross.
  rewrite shortestDistanceLineToLine_eq by assumption.
  rewrite Hcross. eexists. split; [reflexivity |]. split; [| split].
  - intros pq d Hpq Hd. apply foldl_std_min_lower.
    apply list_elem_of_further, list_elem_of_bind. exists pq. auto.
  - pose proof (foldl_std_min_in
                  (segment_pairs line1 line2 ≫= accumulated_distances ruler)
                  infinity) as Hin.
    apply elem_of_cons in Hin as [Hin | Hin]; [left; exact Hin | right].
    apply list_elem_of_bind in Hin as (pq & Hr & Hpq). exists pq. auto.
  - apply foldl_std_min_not_nan, infinity_not_nan.
Qed.

Lemma shortestDistanceLineToLine_nearest_witness :
  exists r,
    shortestDistanceLineToLine (Ruler := Planar.ruler)
      [mkPoint 0 0; mkPoint 10 0] [mkPoint 5 5; mkPoint 5 1] () = Ok r /\
    PrimFloat.is_nan r = false.
Proof.
  destruct (shortestDistanceLineToLine_nearest (Ruler := Planar.ruler)
              [mkPoint 0 0; mkPoint 10 0] [mkPoint 5 5; mkPoint 5 1] ())
    as (r & Hr & _ & _ & Hnan).
  - split; [discriminate | reflexivity].
  - split; [discriminate | reflexivity].
  - reflexivity.
  - exists r. split; assumption.
Defined.

Lemma segment_pairs_single_r (line1 : line_string) (q : Point) :
  segment_pairs line1 [q] = [].
Proof.
  unfold segment_pairs. induction (segments line1) as [| s ss IH];
    [reflexivity |].
  cbn [mbind list_bind app]. exact IH.
Qed.

(** X6: a line of a single vertex has no segment: the distance of a line
    with a vertex to it is +infinity, as is the distance from it to any
    line, even to an empty one. *)
Theorem shortestDistanceLineToLine_single_vertex `{Ruler : CheapRulerAPI}
    (ruler : CheapRuler) (q : Point) :
  (forall line1, usable_line line1 ->
                 shortestDistanceLineToLine line1 [q] ruler = Ok infinity) /\
  (forall line2, shortestDistanceLineToLine [q] line2 ruler = Ok infinity).
Proof.
  split.
  - intros line1 [Hne1 Hok1].
    rewrite shortestDistanceLineToLine_eq
      by (assumption || discriminate || reflexivity).
    rewrite segment_pairs_single_r. reflexivity.
  - intros line2. reflexivity.
Qed.

Lemma shortestDistanceLineToLine_single_vertex_witness :
  shortestDistanceLineToLine (Ruler := Planar.ruler)
    [mkPoint 0 0; mkPoint 2 0] [mkPoint 1 0] () = Ok infinity.
Proof.
  apply (proj1 (shortestDistanceLineToLine_single_vertex
                  (Ruler := Planar.ruler) () (mkPoint 1 0))).
  split; [discriminate | reflexivity].
Defined.

(** ** The dispatch layer on well-formed input *)

Section Dispatch.
Context `{Ruler : CheapRulerAPI}.




End Dispatch.

Section DispatchTile.
Context `{Ruler : CheapRulerAPI} `{Tile : TileAPI}.


End DispatchTile.





(** ** Collections of one member *)

Lemma std_min_infinity (d : double) :
  PrimFloat.is_nan d = false -> std_min infinity d = d.
Proof.
  intros Hd. unfold std_min. destruct (d <? infinity)%float eqn:Hlt;
    [reflexivity |].
  symmetry. apply Prim2SF_inj.
  rewrite FloatAxioms.ltb_spec in Hlt.
  apply not_true_iff_false in Hd. rewrite is_nan_spec in Hd.
  change (Prim2SF infinity) with (S754_infinity false) in *.
  destruct (Prim2SF d) as [[] | [] | | [] m e]; cbn in Hlt;
    try discriminate Hlt; [reflexivity | congruence].
Qed.

Lemma std_min_nan (a d : double) :
  PrimFloat.is_nan d = true -> std_min a d = a.
Proof. intros Hd. unfold std_min. rewrite ltb_nan_l by exact Hd. reflexivity. Qed.

Lemma eqb_nan_l (a b : double) :
  PrimFloat.is_nan a = true -> (a =? b)%float = false.
Proof.
  rewrite is_nan_spec, FloatAxioms.eqb_spec. intros ->. reflexivity.
Qed.

(** X9: a MultiPoint feature of one point, and a MultiLineString feature of
    one line, are measured as the point and as the line alone, except that
    a NaN distance becomes +infinity. *)
Theorem calculateDistance_single_member `{Ruler : CheapRulerAPI}
    `{Tile : TileAPI} (f : GeometryTileFeature) (c : CanonicalTileID)
    (geoSet : geometry) (unit : Unit) :
  (forall p,
     convertGeometry f c = g_multi_point [p] ->
     calculateDistance f c geoSet unit
     = Ok (let d := pointDistanceToGeometry p geoSet unit in
           if PrimFloat.is_nan d then infinity else d)) /\
  (forall line d,
     convertGeometry f c = g_multi_line_string [line] ->
     lineDistanceToGeometry line geoSet unit = Ok d ->
     calculateDistance f c geoSet unit
     = Ok (if PrimFloat.is_nan d then infinity else d)).
Proof.
  assert (Hone : forall d,
            (if (d =? 0)%float then d else std_min infinity d)
            = if PrimFloat.is_nan d then infinity else d).
  { intros d. destruct (PrimFloat.is_nan d) eqn:Hnan.
    - rewrite eqb_nan_l, std_min_nan by exact Hnan. reflexivity.
    - rewrite std_min_infinity by exact Hnan.
      destruct (d =? 0)%float; reflexivity. }
  split.
  - intros p Hconv. unfold calculateDistance. rewrite Hconv.
    cbn [points_to_geometry_from mret outcome_ret]. cbv zeta.
    unfold mret, outcome_ret. f_equal. apply Hone.
  - intros line d Hconv Hline. unfold calculateDistance. rewrite Hconv.
    cbn [lines_to_geometry_from]. rewrite Hline.
    change (Ok d ≫= ?k) with (k d). cbv beta.
    rewrite <- Hone. destruct (d =? 0)%float; reflexivity.
Qed.

Lemma calculateDistance_single_member_witness :
  calculateDistance (Ruler := Planar.ruler) (Tile := Sample.tile)
    (FT_LineString, g_multi_line_string [[mkPoint 0 0; mkPoint 10 0]]) ()
    (g_point (mkPoint 5 3)) Meters
  = Ok 3%float.
Proof.
  exact (proj2 (calculateDistance_single_member (Ruler := Planar.ruler)
                  (Tile := Sample.tile)
                  (FT_LineString,
                   g_multi_line_string [[mkPoint 0 0; mkPoint 10 0]]) ()
                  (g_point (mkPoint 5 3)) Meters)
           [mkPoint 0 0; mkPoint 10 0] 3%float eq_refl eq_refl).
Defined.

(** ** Segments that cannot intersect *)

Lemma twoSided_same (p q1 q2 : Point) : twoSided p p q1 q2 = false.
Proof.
  unfold twoSided. cbv zeta.
  destruct (0 <? _)%float eqn:Hpos.
  - rewrite (ltb_asym _ _ Hpos). reflexivity.
  - rewrite andb_false_r. reflexivity.
Qed.

(** X10: a degenerate segment, whose end points are equal, intersects no
    segment. *)
Theorem lineIntersectLine_degenerate (a c d : Point) :
  lineIntersectLine a a c d = false /\ lineIntersectLine c d a a = false.
Proof.
  unfold lineIntersectLine. cbv zeta. rewrite !twoSided_same.
  rewrite andb_false_r. split; destruct (_ =? 0)%float; reflexivity.
Qed.

Lemma twoSided_nan (p1 p2 q1 q2 : Point) :
  nan_point p1 || nan_point p2 || nan_point q1 || nan_point q2 = true ->
  twoSided p1 p2 q1 q2 = false.
Proof.
  unfold nan_point, twoSided. cbv zeta. intros Hnan.
  match goal with
  | |- (0 <? ?r1)%float && (?r2 <? 0)%float
       || (?r1 <? 0)%float && (0 <? ?r2)%float = false =>
      assert (Hret : PrimFloat.is_nan r1 = true \/ PrimFloat.is_nan r2 = true)
  end.
  { repeat (apply orb_true_iff in Hnan as [Hnan | Hnan]).
    - left. apply sub_nan. left. apply mul_nan. left. apply sub_nan. auto.
    - left. apply sub_nan. right. apply mul_nan. right. apply sub_nan. auto.
    - right. apply sub_nan. left. apply mul_nan. left. apply sub_nan. auto.
    - right. apply sub_nan. right. apply mul_nan. right. apply sub_nan. auto.
    - left. apply sub_nan. left. apply mul_nan. left. apply sub_nan. auto.
    - left. apply sub_nan. right. apply mul_nan. right. apply sub_nan. auto.
    - left. apply sub_nan. right. apply mul_nan. left. apply sub_nan. auto.
    - left. apply sub_nan. left. apply mul_nan. right. apply sub_nan. auto. }
  destruct Hret as [Hret | Hret].
  - rewrite (ltb_nan_r _ _ Hret), (ltb_nan_l _ _ Hret). reflexivity.
  - rewrite (ltb_nan_r _ _ Hret), (ltb_nan_l _ _ Hret).
    rewrite !andb_false_r. reflexivity.
Qed.

(** X11: segments with a NaN coordinate in one of their four end points do
    not intersect. *)
Theorem lineIntersectLine_nan (a b c d : Point) :
  nan_point a || nan_point b || nan_point c || nan_point d = true ->
  lineIntersectLine a b c d = false.
Proof.
  intros Hnan. unfold lineIntersectLine. cbv zeta.
  rewrite (twoSided_nan a b c d Hnan).
  destruct (_ =? 0)%float; reflexivity.
Qed.

Lemma lineIntersectLine_nan_witness :
  lineIntersectLine (mkPoint 0 0) (mkPoint 1 1) (mkPoint 0 1)
    (mkPoint 1 PrimFloat.nan) = false.
Proof. apply lineIntersectLine_nan. reflexivity. Defined.

(** ** Nearest member, line side and feature side *)

(** X12: for a line with a vertex and a multi-point reference,
    [lineDistanceToGeometry] measures every point with the ruler anchored at
    the latitude of the line's first vertex and returns a distance below
    which none of the points lies; the result is +infinity or the distance
    of one of the points, and never NaN. *)
Theorem lineDistanceToGeometry_multi_point_nearest `{Ruler : CheapRulerAPI}
    (front : Point) (rest : line_string) (points : multi_point)
    (unit : Unit) :
  let line := front :: rest in
  let ruler := CheapRuler_new (y front) unit in
  exists r,
    lineDistanceToGeometry line (g_multi_point points) unit = Ok r /\
    (forall p, p ∈ points ->
               (shortestDistanceToLine p line ruler <? r)%float = false) /\
    (r = infinity \/
     exists p, p ∈ points /\ r = shortestDistanceToLine p line ruler) /\
    PrimFloat.is_nan r = false.
Proof.
  intros line ruler.
  exists (foldl std_min infinity
            ((fun p => shortestDistanceToLine p line ruler) <$> points)).
  split.
  { rewrite foldl_fmap. reflexivity. }
  split; [| split].
  - intros p Hp. apply foldl_std_min_lower, list_elem_of_further.
    apply (list_elem_of_fmap_2
             (fun p => shortestDistanceToLine p line ruler)). exact Hp.
  - pose proof (foldl_std_min_in
                  ((fun p => shortestDistanceToLine p line ruler) <$> points)
                  infinity) as Hin.
    apply elem_of_cons in Hin as [Hin | Hin]; [left; exact Hin | right].
    apply list_elem_of_fmap in Hin as (p & Hr & Hp). exists p. auto.
  - apply foldl_std_min_not_nan, infinity_not_nan.
Qed.

Section FeatureSide.
Context `{Ruler : CheapRulerAPI} `{Tile : TileAPI}.

Lemma points_to_geometry_from_eq (points : multi_point) (geoSet : geometry)
    (unit : Unit) (ret : double) :
  points_to_geometry_from points geoSet unit ret
  = min_until_zero
      ((fun p => pointDistanceToGeometry p geoSet unit) <$> points) ret.
Proof.
  revert ret. induction points as [| p points IH]; intros ret; [reflexivity |].
  cbn [points_to_geometry_from fmap list_fmap min_until_zero].
  rewrite IH. reflexivity.
Qed.
End FeatureSide.

(** X13: for a feature that converts to a multi-point, every point is
    measured by [pointDistanceToGeometry] (with a ruler of its own
    latitude); when none of these distances is negative,
    [calculateDistance] returns a distance below which none of them lies,
    which is +infinity or the distance of one of the points, and never
    NaN. *)
Theorem calculateDistance_multi_point_nearest `{Ruler : CheapRulerAPI}
    `{Tile : TileAPI} (f : GeometryTileFeature) (c : CanonicalTileID)
    (points : multi_point) (geoSet : geometry) (unit : Unit) :
  convertGeometry f c = g_multi_point points ->
  Forall (fun p => (pointDistanceToGeometry p geoSet unit <? 0)%float = false)
         points ->
  exists r,
    calculateDistance f c geoSet unit = Ok r /\
    (forall p, p ∈ points ->
               (pointDistanceToGeometry p geoSet unit <? r)%float = false) /\
    (r = infinity \/
     exists p, p ∈ points /\ r = pointDistanceToGeometry p geoSet unit) /\
    PrimFloat.is_nan r = false.
Proof.
  intros Hconv Hpos. unfold calculateDistance. rewrite Hconv.
  eexists. split; [reflexivity |].
  rewrite points_to_geometry_from_eq.
  exact (min_until_zero_nearest
           (fun p => pointDistanceToGeometry p geoSet unit) points Hpos).
Qed.

Lemma calculateDistance_multi_point_nearest_witness :
  exists r,
    calculateDistance (Ruler := Planar.ruler) (Tile := Sample.tile)
      (FT_Point, g_multi_point [mkPoint 3 4; mkPoint 0 2]) ()
      (g_point (mkPoint 0 0)) Meters = Ok r /\
    PrimFloat.is_nan r = false.
Proof.
  destruct (calculateDistance_multi_point_nearest (Ruler := Planar.ruler)
              (Tile := Sample.tile)
              (FT_Point, g_multi_point [mkPoint 3 4; mkPoint 0 2]) ()
              [mkPoint 3 4; mkPoint 0 2] (g_point (mkPoint 0 0)) Meters
              eq_refl ltac:(repeat constructor))
    as (r & Hr & _ & _ & Hnan).
  exists r. split; assumption.
Defined.

(** ** The parser: outcomes and errors *)

Lemma parseValue_some `{Conv : ConvertibleAPI}
    (value : Convertible) (ctx ctx' : ParsingContext) (args : Arguments) :
  parseValue value ctx = (Some args, ctx') ->
  ctx' = ctx /\ accepted_arguments value (geojson args).
Proof.
  unfold parseValue, accepted_arguments.
  destruct (isArray value); [| discriminate].
  destruct (Z.eqb_spec (arrayLength value) 2) as [Hlen | Hn2];
    [| destruct (Z.eqb_spec (arrayLength value) 3) as [Hlen | Hn3]];
    cbn [negb andb]; try discriminate.
  all: destruct (isObject (arrayMember value 1)); [| discriminate].
  all: destruct (toGeoJSON (arrayMember value 1)) as [[g |] message];
    [| discriminate].
  all: destruct (String.eqb_spec message "") as [-> | Hmsg]; [| discriminate].
  all: intros [= <- <-]; cbn [geojson]; auto.
Qed.

(** X14: [parseValue] returns arguments only for an accepted argument list,
    and then reports nothing; for every other value it returns nothing and
    reports one or two errors, after those already in the context. *)
Theorem parseValue_outcomes `{Conv : ConvertibleAPI}
    (value : Convertible) (ctx : ParsingContext) :
  (forall args ctx',
     parseValue value ctx = (Some args, ctx') ->
     ctx' = ctx /\ accepted_arguments value (geojson args)) /\
  ((forall document, ~ accepted_arguments value document) ->
   exists errors,
     parseValue value ctx = (None, ctx ++ errors) /\
     (1 <= length errors <= 2)%nat).
Proof.
  split; [intros args ctx'; apply parseValue_some |].
  unfold parseValue, accepted_arguments, ctx_error. intros Hnone.
  destruct (isArray value);
    [| eexists; split; [reflexivity | cbn; lia]].
  destruct (Z.eqb_spec (arrayLength value) 2) as [Hlen | Hn2];
    [| destruct (Z.eqb_spec (arrayLength value) 3) as [Hlen | Hn3]];
    cbn [negb andb];
    try (eexists; split; [reflexivity | cbn; lia]).
  all: destruct (isObject (arrayMember value 1));
    [| eexists; split; [reflexivity | cbn; lia]].
  all: destruct (toGeoJSON (arrayMember value 1)) as [[g |] message];
    [destruct (String.eqb_spec message "") as [-> | Hmsg] |].
  all: try (eexists; split; [rewrite <- app_assoc; reflexivity | cbn; lia]).
  all: exfalso; apply (Hnone g); auto.
Qed.

Lemma parseValue_outcomes_witness :
  exists errors,
    parseValue (Conv := Sample.doc) (Sample.D_array []) ["earlier"%string]
    = (None, "earlier"%string :: errors) /\
    (1 <= length errors <= 2)%nat.
Proof.
  destruct (proj2 (parseValue_outcomes (Conv := Sample.doc)
                     (Sample.D_array []) ["earlier"%string]))
    as (errors & Herr & Hlen).
  - intros document (_ & [Hlen | Hlen] & _); discriminate Hlen.
  - exists errors. split; assumption.
Defined.

Section ParseErrors.
Context `{Conv : ConvertibleAPI} `{Visitor : FeatureTypeAPI}.

(** [Distance::parse] treats a geometry and a feature as a collection of
    one feature. *)
Lemma parse_eq_features (value : Convertible) (ctx ctx1 : ParsingContext)
    (parsedValue : Arguments) :
  parseValue value ctx = (Some parsedValue, ctx1) ->
  parse value ctx
  = parse_features parsedValue (document_features (geojson parsedValue)) ctx1.
Proof.
  intros Hparsed. unfold parse. rewrite Hparsed.
  destruct parsedValue as [[g | f | fs] u];
    cbn [geojson arg_unit document_features parse_features];
    [| | reflexivity];
    destruct (getGeometry _ ctx1) as [[ret |] ctx2]; reflexivity.
Qed.

Lemma parse_features_skip (parsedValue : Arguments)
    (pre rest : list Feature) (ctx : ParsingContext) :
  Forall (fun f => ~ point_or_line (f_geometry f)) pre ->
  parse_features parsedValue (pre ++ rest) ctx
  = parse_features parsedValue rest
      (ctx ++ replicate (length pre) geometry_type_error).
Proof.
  intros Hpre. revert ctx.
  induction Hpre as [| f pre Hf _ IH]; intros ctx; cbn [app parse_features].
  - cbn. rewrite app_nil_r. reflexivity.
  - rewrite getGeometry_rejects by assumption. rewrite IH.
    unfold ctx_error. rewrite <- app_assoc. reflexivity.
Qed.

Lemma parse_features_some (parsedValue : Arguments)
    (features : list Feature) (ctx ctx' : ParsingContext) (node : Distance) :
  parse_features parsedValue features ctx = (Some node, ctx') ->
  exists feature,
    feature ∈ features /\ point_or_line (f_geometry feature) /\
    node = mkDistance (geojson parsedValue) (f_geometry feature)
             (arg_unit parsedValue).
Proof.
  revert ctx. induction features as [| f features IH]; intros ctx;
    [discriminate |].
  cbn [parse_features]. unfold getGeometry.
  destruct (bool_decide (ToFeatureType (f_geometry f) = FT_Point)
            || bool_decide (ToFeatureType (f_geometry f) = FT_LineString))
    eqn:Hty.
  - intros [= <- <-]. exists f. split; [apply list_elem_of_here |].
    split; [| reflexivity]. unfold point_or_line.
    apply orb_true_iff in Hty as [Hty | Hty];
      apply bool_decide_eq_true in Hty; auto.
  - intros Hrest. destruct (IH _ Hrest) as (feature & Hin & Hacc & Hnode).
    exists feature. split; [apply list_elem_of_further; exact Hin | auto].
Qed.
End ParseErrors.

Lemma document_geometries_features (doc : GeoJSON) :
  document_geometries doc = f_geometry <$> document_features doc.
Proof. destruct doc; reflexivity. Qed.

(** X15: every node that [parse] builds keeps the decoded document as its
    source and the unit of the argument list, and its reference geometry is
    one of the geometries of that document, of feature type [Point] or
    [LineString]. *)
Theorem parse_node_invariant `{Conv : ConvertibleAPI}
    `{Visitor : FeatureTypeAPI} (value : Convertible)
    (ctx ctx' : ParsingContext) (node : Distance) :
  parse value ctx = (Some node, ctx') ->
  point_or_line (geometries node) /\
  geometries node ∈ document_geometries (geoJSONSource node) /\
  accepted_arguments value (geoJSONSource node) /\
  exists ctx1,
    parseValue value ctx
    = (Some (mkArguments (geoJSONSource node) (unit node)), ctx1).
Proof.
  intros Hparse.
  destruct (parseValue value ctx) as [[parsedValue |] ctx1] eqn:Hparsed;
    [| unfold parse in Hparse; rewrite Hparsed in Hparse; discriminate].
  rewrite (parse_eq_features value ctx ctx1 parsedValue Hparsed) in Hparse.
  apply parse_features_some in Hparse as (feature & Hin & Hacc & ->).
  cbn [geometries geoJSONSource unit].
  split; [exact Hacc |]. split; [| split].
  - rewrite document_geometries_features.
    apply list_elem_of_fmap_2. exact Hin.
  - exact (proj2 (parseValue_some value ctx ctx1 _ Hparsed)).
  - exists ctx1. destruct parsedValue. reflexivity.
Qed.

Lemma parse_node_invariant_witness :
  let document :=
    GJ_feature_collection
      [Feature_of_geometry (g_polygon []);
       Feature_of_geometry (g_point (mkPoint 2 2))] in
  point_or_line (Visitor := Sample.feature_type) (g_point (mkPoint 2 2)) /\
  g_point (mkPoint 2 2) ∈ document_geometries document.
Proof.
  intros document.
  destruct (parse_node_invariant (Conv := Sample.doc)
              (Visitor := Sample.feature_type)
              (Sample.D_array
                 [Sample.D_string "distance";
                  Sample.D_object (Some document) "";
                  Sample.D_string "Miles"])
              [] [geometry_type_error]
              (mkDistance document (g_point (mkPoint 2 2)) Miles) eq_refl)
    as (Hacc & Hin & _).
  split; assumption.
Defined.

(** X16: once the arguments are accepted, [parse] reports the
    geometry-type error once for every geometry of the document that comes
    before the first one of feature type [Point] or [LineString], and once
    for every geometry when there is none.  So a feature collection that
    parses after skipping features leaves their errors in the context, and
    an empty feature collection fails without reporting anything. *)
Theorem parse_error_accounting `{Conv : ConvertibleAPI}
    `{Visitor : FeatureTypeAPI} (value : Convertible)
    (ctx ctx1 : ParsingContext) (parsedValue : Arguments)
    (skipped rest : list geometry) :
  parseValue value ctx = (Some parsedValue, ctx1) ->
  document_geometries (geojson parsedValue) = skipped ++ rest ->
  Forall (fun g => ~ point_or_line g) skipped ->
  rest = [] \/ (exists g rest', rest = g :: rest' /\ point_or_line g) ->
  (parse value ctx).2
  = ctx1 ++ replicate (length skipped) geometry_type_error /\
  ((parse value ctx).1 = None <-> rest = []).
Proof.
  intros Hparsed Hdoc Hskipped Hrest.
  rewrite (parse_eq_features value ctx ctx1 parsedValue Hparsed).
  rewrite document_geometries_features in Hdoc.
  apply fmap_app_inv in Hdoc as (pre & post & Hpre & Hpost & ->).
  subst skipped rest. rewrite Forall_fmap in Hskipped.
  rewrite parse_features_skip by exact Hskipped. rewrite length_fmap.
  destruct Hrest as [Hnil | (g & rest' & Hcons & Hacc)].
  - apply fmap_nil_inv in Hnil as ->. cbn [parse_features fst snd].
    split; [reflexivity | split; reflexivity].
  - destruct post as [| f post]; [discriminate Hcons |].
    cbn [fmap list_fmap] in Hcons. injection Hcons as <- _.
    cbn [parse_features]. rewrite getGeometry_accepts by exact Hacc.
    cbn [fst snd]. split; [reflexivity | split; discriminate].
Qed.

Lemma parse_error_accounting_witness :
  parse (Conv := Sample.doc) (Visitor := Sample.feature_type)
    (Sample.D_array
       [Sample.D_string "distance";
        Sample.D_object (Some (GJ_feature_collection [])) ""]) []
  = (None, []) /\
  (parse (Conv := Sample.doc) (Visitor := Sample.feature_type)
     (Sample.D_array
        [Sample.D_string "distance";
         Sample.D_object
           (Some (GJ_feature_collection
                    [Feature_of_geometry (g_polygon []);
                     Feature_of_geometry (g_point (mkPoint 2 2))])) ""])
     []).2
  = [geometry_type_error].
Proof.
  split; [reflexivity |].
  refine (proj1 (parse_error_accounting (Conv := Sample.doc)
                   (Visitor := Sample.feature_type)
                   (Sample.D_array
                      [Sample.D_string "distance";
                       Sample.D_object
                         (Some (GJ_feature_collection
                                  [Feature_of_geometry (g_polygon []);
                                   Feature_of_geometry
                                     (g_point (mkPoint 2 2))])) ""])
                   [] []
                   (mkArguments
                      (GJ_feature_collection
                         [Feature_of_geometry (g_polygon []);
                          Feature_of_geometry (g_point (mkPoint 2 2))])
                      Meters)
                   [g_polygon []] [g_point (mkPoint 2 2)]
                   eq_refl eq_refl _ _)).
  - constructor; [| constructor]. intros [Hty | Hty]; discriminate Hty.
  - right. eexists _, _. split; [reflexivity |]. left. reflexivity.
Defined.

(** ** Serialization: the log and the members *)

(** X17: [serialize] logs its error exactly when the converted document is
    not an object; it still returns a sequence of two elements then, the
    second being the encoding of an empty object. *)
Theorem serialize_log `{Codec : SerializeAPI} (self : Distance) :
  ((serialize self).2 = [] <->
   exists members, geojson_convert (geoJSONSource self) = RJ_Object members) /\
  ((forall members, geojson_convert (geoJSONSource self) <> RJ_Object members) ->
   serialize self
   = (V_array [V_string "distance"; fromExpressionValue (E_object ∅)],
      ["Failed to serialize 'distance' expression, converted rapidJSON is not an object"%string])).
Proof.
  unfold serialize.
  destruct (geojson_convert (geoJSONSource self)) as [| | | members | | | |];
    cbn [fst snd]; split;
    try (split; [discriminate | intros [? [=]]]);
    try (intros _; reflexivity).
  - split; [intros _; eexists; reflexivity | reflexivity].
  - intros Hnot. destruct (Hnot members eq_refl).
Qed.

(** X18: in the object that [convertValue] makes, and in the one that
    [serialize] encodes, a key holds the conversion of the first member of
    that name (names being read as C strings), and a key that names no
    member is absent. *)
Theorem convertValue_object_lookup `{Codec : SerializeAPI}
    (members : list (string * rapidjson_value)) :
  (exists m,
     convertValue (RJ_Object members) = E_object m /\
     forall key, m !! key = convertValue <$> first_member key members) /\
  (forall self,
     geojson_convert (geoJSONSource self) = RJ_Object members ->
     exists m,
       (serialize self).1
       = V_array [V_string "distance"; fromExpressionValue (E_object m)] /\
       forall key, m !! key = convertValue <$> first_member key members).
Proof.
  split.
  - eexists. split; [reflexivity |]. intros key.
    rewrite find_emplace_lookup, lookup_empty. reflexivity.
  - intros self Hconv. unfold serialize. rewrite Hconv. cbn [fst].
    eexists. split; [reflexivity |]. intros key.
    rewrite find_emplace_lookup, lookup_empty. reflexivity.
Qed.
